(** * NeuroMirror backend (flask_backend/app.py): model and verified properties

    A shallow embedding of the request handlers of [app.py].  The external
    collaborators (the FER classifier, the Gemini client, the image decoding
    stack, [json.loads], the clock) are parameters of the model; everything
    the file itself decides (validation, control flow on exceptions, the
    fallback tables, the rows written, the shape of the answers) is
    transcribed from the source. *)

From Stdlib Require Import List String Ascii Bool ZArith QArith Qround Qabs Lia Lqa.
From Stdlib Require Import Sorting.Sorted Permutation.
Import ListNotations.
Set Warnings "-register-all".
Open Scope string_scope.
Open Scope Z_scope.

(** ** Python values *)

(** A value obtained from JSON ([request.get_json()], [json.loads]).
    [JNull] is Python's [None].  Numbers matter to the handlers only through
    their truth value, so one rational payload stands for ints and floats. *)
Inductive json : Type :=
| JNull
| JBool (b : bool)
| JNum (q : Q)
| JStr (s : string)
| JArr (items : list json)
| JObj (fields : list (string * json)).

(** A Python [dict] with string keys, in insertion order.  A lookup returns
    the first binding of the key. *)
Fixpoint dict_get {V : Type} (d : list (string * V)) (k : string) : option V :=
  match d with
  | [] => None
  | (k', v) :: d' => if String.eqb k' k then Some v else dict_get d' k
  end.

Definition dict_keys {V : Type} (d : list (string * V)) : list string :=
  map fst d.

(** [d.get(k, default)] *)
Definition dict_get_default {V : Type} (d : list (string * V)) (k : string) (dflt : V) : V :=
  match dict_get d k with
  | Some v => v
  | None => dflt
  end.

(** Python's truth value of a JSON-derived value ([if data], [not data]). *)
Definition truthy (v : json) : bool :=
  match v with
  | JNull => false
  | JBool b => b
  | JNum q => negb (Qeq_bool q 0)
  | JStr s => negb (String.eqb s "")
  | JArr l => match l with [] => false | _ => true end
  | JObj d => match d with [] => false | _ => true end
  end.

(** Strict comparison of two floats, [a < b]. *)
Definition Qltb (a b : Q) : bool := negb (Qle_bool b a).

(** ** Emotion detection *)

(** One element of the list returned by [FER.detect_emotions]: the bounding
    box and the per-emotion score mapping of a face. *)
Record face : Type := mkFace {
  box : Z * Z * Z * Z;
  emotions : list (string * Q)
}.

(** The loop of the builtin [max(iterable, key=f)]: the running maximum is
    replaced only by a strictly greater key, so the first maximal element in
    iteration order wins.  A key function that yields [None] makes the
    comparison raise. *)
Fixpoint max_loop (key : string -> option Q) (best : string) (bestv : Q)
         (rest : list string) : option string :=
  match rest with
  | [] => Some best
  | k :: rest' =>
      match key k with
      | None => None
      | Some v =>
          if Qltb bestv v then max_loop key k v rest'
          else max_loop key best bestv rest'
      end
  end.

(** [max(iterable, key=f)]; [None] stands for the raised exception
    ([ValueError] on an empty iterable). *)
Definition py_max (key : string -> option Q) (items : list string) : option string :=
  match items with
  | [] => None
  | k :: rest =>
      match key k with
      | None => None
      | Some v => max_loop key k v rest
      end
  end.

(** ** External collaborators

    Everything the service consumes and does not implement.  An exception
    raised by a collaborator is a [None] (or a dedicated constructor). *)

(** What one [model.generate_content(prompt)] yields: the call raises, or it
    returns a response whose [.text] accessor raises, or a response with a
    text. *)
Inductive llm_outcome : Type :=
| CallRaises
| TextRaises
| Text (s : string).

Record externals : Type := mkExternals {
  (** the OpenCV image type *)
  image : Type;
  (** [emotion_detector.detect_emotions]: the faces found, or the call raises *)
  detect_emotions : image -> option (list face);
  (** [base64.b64decode], [Image.open], [np.array], [cv2.cvtColor] on the
      payload string, or one of them raises *)
  open_image : string -> option image;
  (** the module-level [model]: [None] without [GEMINI_API_KEY] *)
  model : option (string -> llm_outcome);
  (** [json.loads] *)
  json_loads : string -> option json;
  (** Python's formatting of a number, list or dict inside an f-string *)
  py_repr : json -> string;
  (** the text SQLite keeps in a TEXT column for a bound number or bool, or
      binding raises [OverflowError] *)
  number_text : json -> option string;
  (** [int(s)], or [ValueError] *)
  py_int : string -> option Z;
  (** [datetime] values and their [isoformat()] *)
  datetime : Type;
  isoformat : datetime -> string
}.

(** [detect_emotion(image)]: the pair [(dominant_emotion, confidence)];
    every exception inside the [try] yields [(None, 0.0)]. *)
Definition detect_emotion (E : externals) (img : image E) : option string * Q :=
  match detect_emotions E img with
  | None => (None, 0%Q)
  | Some [] => (None, 0%Q)
  | Some (first :: _) =>
      let emotion_data := emotions first in
      match py_max (dict_get emotion_data) (dict_keys emotion_data) with
      | None => (None, 0%Q)
      | Some dominant_emotion =>
          match dict_get emotion_data dominant_emotion with
          | None => (None, 0%Q)
          | Some confidence => (Some dominant_emotion, confidence)
          end
      end
  end.

(** ** Strings

    A Python [str] is modelled by a [string]; its characters are the code
    points below 256. *)

Definition nl : string := String "010"%char "".
Definition dq : string := String "034"%char "".

(** [c in s] for a one-character [c] *)
Fixpoint has_char (c : ascii) (s : string) : bool :=
  match s with
  | EmptyString => false
  | String a s' => Ascii.eqb a c || has_char c s'
  end.

(** [s.split(c)] for a one-character separator: never empty *)
Fixpoint split_char (c : ascii) (s : string) : list string :=
  match s with
  | EmptyString => [EmptyString]
  | String a s' =>
      if Ascii.eqb a c then EmptyString :: split_char c s'
      else match split_char c s' with
           | [] => [String a EmptyString]
           | piece :: pieces => String a piece :: pieces
           end
  end.

(** [pat in s] for strings *)
Fixpoint has_substring (pat s : string) : bool :=
  String.prefix pat s ||
  match s with
  | EmptyString => false
  | String _ s' => has_substring pat s'
  end.

(** [str.isspace] on one character below 256 *)
Definition py_isspace (c : ascii) : bool :=
  let n := nat_of_ascii c in
  ((9 <=? n) && (n <=? 13) || (28 <=? n) && (n <=? 32) || (n =? 133) || (n =? 160))%nat.

Fixpoint lstrip (s : string) : string :=
  match s with
  | EmptyString => EmptyString
  | String c s' => if py_isspace c then lstrip s' else s
  end.

Fixpoint rstrip (s : string) : string :=
  match s with
  | EmptyString => EmptyString
  | String c s' =>
      match rstrip s' with
      | EmptyString => if py_isspace c then EmptyString else String c EmptyString
      | kept => String c kept
      end
  end.

(** [s.strip()] *)
Definition strip (s : string) : string := rstrip (lstrip s).

(** The text of a triple-quoted literal written over several source lines:
    it opens with a newline and every line ends with one. *)
Definition block (lines : list string) (last : string) : string :=
  nl ++ fold_right (fun l acc => l ++ nl ++ acc) last lines.

(** f-string formatting of a value: a [str] is inserted as it is. *)
Definition py_format (E : externals) (v : json) : string :=
  match v with
  | JStr s => s
  | JNull => "None"
  | JBool true => "True"
  | JBool false => "False"
  | _ => py_repr E v
  end.

(** ** Indexing and membership on JSON-derived values *)

Definition json_is_str (k : string) (v : json) : bool :=
  match v with
  | JStr s => String.eqb s k
  | _ => false
  end.

(** [k in v]: key membership on a dict, element membership on a list,
    substring test on a str; [TypeError] ([None]) on anything else. *)
Definition py_in (k : string) (v : json) : option bool :=
  match v with
  | JObj d => Some (existsb (String.eqb k) (dict_keys d))
  | JArr l => Some (existsb (json_is_str k) l)
  | JStr s => Some (has_substring k s)
  | _ => None
  end.

(** [v[k]] with a string [k]: [KeyError] or [TypeError] is [None]. *)
Definition py_getitem (v : json) (k : string) : option json :=
  match v with
  | JObj d => dict_get d k
  | _ => None
  end.

(** [v.get(k, default)]: [AttributeError] ([None]) unless [v] is a dict. *)
Definition py_get (v : json) (k : string) (dflt : json) : option json :=
  match v with
  | JObj d => Some (dict_get_default d k dflt)
  | _ => None
  end.

(** ** Image decoding *)

(** [decode_base64_image(base64_string)]: a data-URL prefix is cut at the
    first comma; anything raised inside the [try] gives [None].  A value that
    is not a [str] always raises there. *)
Definition decode_base64_image (E : externals) (base64_string : json) : option (image E) :=
  match base64_string with
  | JStr s =>
      if has_char ","%char s then
        match nth_error (split_char ","%char s) 1 with
        | Some payload => open_image E payload
        | None => None
        end
      else open_image E s
  | _ => None
  end.

(** ** Therapeutic suggestions *)

(** The prompt of [get_therapeutic_suggestion]. *)
Definition suggestion_prompt (emotion : string) : string :=
  block
    [ "            You are a compassionate AI therapist. A person is feeling " ++ emotion ++ ". ";
      "            Provide a therapeutic response with:";
      "            1. A supportive message (2-3 sentences)";
      "            2. A practical tip for managing this emotion";
      "            3. A suggested activity to help them feel better";
      "            4. A type of calming sound that would help (e.g., " ++ dq ++ "ocean waves" ++ dq ++ ", " ++ dq ++ "forest sounds" ++ dq ++ ", " ++ dq ++ "gentle rain" ++ dq ++ ")";
      "            ";
      "            Be warm, empathetic, and professional. Focus on emotional regulation and self-care.";
      "            Keep each section concise but meaningful.";
      "            ";
      "            Format your response as JSON with keys: message, tip, activity, sound" ]
    "            ".

(** The suggestion returned when the generated text is not JSON. *)
Definition unparsed_suggestion : json :=
  JObj
    [ ("message", JStr "You're doing great by acknowledging your feelings. Every emotion is valid and temporary.");
      ("tip", JStr "Take slow, deep breaths and remind yourself that this feeling will pass.");
      ("activity", JStr "Try a short mindfulness exercise or gentle movement.");
      ("sound", JStr "calming nature sounds") ].

Definition happy_suggestion : json :=
  JObj
    [ ("message", JStr "Your positive energy is wonderful! Embrace this joyful moment and let it fill you with warmth.");
      ("tip", JStr "Share your happiness with others - positive emotions are contagious in the best way.");
      ("activity", JStr "Try dancing to your favorite song or call someone you care about.");
      ("sound", JStr "uplifting nature sounds") ].

Definition sad_suggestion : json :=
  JObj
    [ ("message", JStr "It's completely okay to feel this way. Your emotions are valid, and you're not alone in this.");
      ("tip", JStr "Allow yourself to feel without judgment. Sadness is a natural part of the human experience.");
      ("activity", JStr "Try gentle stretching, journaling, or listening to comforting music.");
      ("sound", JStr "gentle rain") ].

Definition angry_suggestion : json :=
  JObj
    [ ("message", JStr "Your feelings are valid. Let's channel this energy in a healthy, constructive way.");
      ("tip", JStr "Physical movement can help release tension. Take deep breaths and count to ten.");
      ("activity", JStr "Try a brief walk outside, some deep breathing, or write down your thoughts.");
      ("sound", JStr "flowing stream") ].

Definition fear_suggestion : json :=
  JObj
    [ ("message", JStr "You're braver than you feel right now. Fear is temporary, but your strength is lasting.");
      ("tip", JStr "Ground yourself by focusing on what you can control in this moment.");
      ("activity", JStr "Practice the 5-4-3-2-1 grounding technique: 5 things you see, 4 you hear, 3 you feel, 2 you smell, 1 you taste.");
      ("sound", JStr "peaceful forest") ].

Definition surprise_suggestion : json :=
  JObj
    [ ("message", JStr "Life is full of unexpected moments. You're handling this surprise with grace.");
      ("tip", JStr "Take a moment to process this new information. Surprises can lead to growth.");
      ("activity", JStr "Take a few mindful breaths and reflect on how you're feeling right now.");
      ("sound", JStr "gentle wind chimes") ].

Definition disgust_suggestion : json :=
  JObj
    [ ("message", JStr "Your boundaries and values are important. It's okay to feel this way about things that don't align with you.");
      ("tip", JStr "Distance yourself from what's bothering you if possible, and focus on what brings you peace.");
      ("activity", JStr "Engage in something that brings you joy or comfort - perhaps a hobby or time in nature.");
      ("sound", JStr "mountain breeze") ].

Definition neutral_suggestion : json :=
  JObj
    [ ("message", JStr "A balanced state is a gift. You're centered and ready for whatever comes your way.");
      ("tip", JStr "This is a perfect time for planning, reflection, or trying something new.");
      ("activity", JStr "Consider setting a small, achievable goal for today or practicing gratitude.");
      ("sound", JStr "ambient peace") ].

(** The dict literal [fallback_suggestions]. *)
Definition fallback_suggestions : list (string * json) :=
  [ ("happy", happy_suggestion);
    ("sad", sad_suggestion);
    ("angry", angry_suggestion);
    ("fear", fear_suggestion);
    ("surprise", surprise_suggestion);
    ("disgust", disgust_suggestion);
    ("neutral", neutral_suggestion) ].

(** [fallback_suggestions['neutral']]; the key is in the literal, so the
    [KeyError] branch is dead. *)
Definition fallback_neutral : json :=
  match dict_get fallback_suggestions "neutral" with
  | Some entry => entry
  | None => JNull
  end.

(** [get_therapeutic_suggestion(emotion, use_gemini)].  With a configured
    model the generated text is parsed; a text that does not parse gives the
    fixed [unparsed_suggestion]; a failing call (or a [.text] that raises,
    which raises again in the inner handler) is logged and falls through to
    the table lookup. *)
Definition get_therapeutic_suggestion (E : externals) (emotion : string)
           (use_gemini : bool) : json :=
  let fallback := dict_get_default fallback_suggestions emotion fallback_neutral in
  match (if use_gemini then model E else None) with
  | Some generate_content =>
      match generate_content (suggestion_prompt emotion) with
      | Text text =>
          match json_loads E text with
          | Some suggestion_data => suggestion_data
          | None => unparsed_suggestion
          end
      | TextRaises => fallback
      | CallRaises => fallback
      end
  | None => fallback
  end.

(** ** Chat replies *)

Definition no_model_reply : string :=
  "I'm here to listen and support you. Sometimes it helps just to know someone cares about you.".

Definition failure_reply : string :=
  "I'm here for you. Your feelings are valid, and it's okay to take things one step at a time.".

(** [chat_history[-5:]] on a list *)
Definition last_five {A : Type} (l : list A) : list A :=
  skipn (List.length l - 5)%nat l.

(** One turn of the loop over the prior messages: [msg.get] raises unless
    [msg] is a dict. *)
Definition context_line (E : externals) (msg : json) : option string :=
  match msg with
  | JObj d =>
      let sender :=
        if json_is_str "user" (dict_get_default d "sender" JNull)
        then "Human" else "Therapist" in
      Some (sender ++ ": " ++ py_format E (dict_get_default d "text" (JStr "")) ++ nl)
  | _ => None
  end.

Fixpoint context_lines (E : externals) (msgs : list json) (context : string) : option string :=
  match msgs with
  | [] => Some context
  | msg :: msgs' =>
      match context_line E msg with
      | Some line => context_lines E msgs' (context ++ line)
      | None => None
      end
  end.

(** The context built from [chat_history]; [None] when slicing or a [msg.get]
    raises.  A falsy history leaves the context empty. *)
Definition build_context (E : externals) (chat_history : json) : option string :=
  if truthy chat_history then
    match chat_history with
    | JArr msgs => context_lines E (last_five msgs) ("Previous conversation:" ++ nl)
    | _ => None
    end
  else Some "".

(** The prompt of [get_chat_response]. *)
Definition chat_prompt (mood_context context message : string) : string :=
  block
    [ "        You are a compassionate, professional AI therapist. You provide supportive, empathetic responses that help people process their emotions and find healthy coping strategies.";
      "        ";
      "        " ++ mood_context;
      "        ";
      "        " ++ context;
      "        ";
      "        Human: " ++ message;
      "        ";
      "        Guidelines for your response:";
      "        - Be warm, empathetic, and non-judgmental";
      "        - Acknowledge their feelings without minimizing them";
      "        - Offer gentle guidance or coping strategies when appropriate";
      "        - Ask thoughtful follow-up questions to encourage reflection";
      "        - Keep responses concise but meaningful (2-4 sentences)";
      "        - Use therapeutic techniques like validation, reframing, and mindfulness";
      "        - Avoid giving medical advice or diagnosing";
      "        - Focus on emotional support and self-care";
      "        ";
      "        Respond as a caring therapist:" ]
    "        ".

(** [get_chat_response(message, mood, chat_history)] *)
Definition get_chat_response (E : externals) (message mood chat_history : json) : string :=
  match model E with
  | None => no_model_reply
  | Some generate_content =>
      match build_context E chat_history with
      | None => failure_reply
      | Some context =>
          let mood_context :=
            if truthy mood
            then "The person's current detected mood is: " ++ py_format E mood
            else "" in
          let prompt := chat_prompt mood_context context (py_format E message) in
          match generate_content prompt with
          | Text text => strip text
          | TextRaises => failure_reply
          | CallRaises => failure_reply
          end
      end
  end.

(** ** The store

    The three tables of [neuromirror.db], each a list of rows in insertion
    order.  A TEXT column that may be NULL holds a [cell]; a timestamp is the
    reading of the store's clock ([CURRENT_TIMESTAMP], whose fixed-width text
    orders as the instants do). *)

Definition cell : Type := option string.

(** What the store does with a write statement that opens a transaction.
    The handlers close a connection on their success path only, so a request
    that failed in the middle of a write can leave a connection behind that
    still holds the write lock; until that connection is collected a new
    INSERT is refused ([OperationalError], database is locked).  Otherwise the
    statement runs, at the clock reading [now]. *)
Inductive execution : Type :=
| Refused
| Runs (now : Z).

Record mood_row : Type := mkMoodRow {
  mood_id : Z;
  mood_emotion : string;
  mood_confidence : Q;
  mood_timestamp : Z;
  mood_session_id : cell
}.

Record chat_row : Type := mkChatRow {
  chat_id : Z;
  chat_message : string;
  chat_sender : string;
  chat_mood : cell;
  chat_timestamp : Z;
  chat_session_id : cell
}.

Record suggestion_row : Type := mkSuggestionRow {
  suggestion_id : Z;
  suggestion_emotion : string;
  suggestion_message : string;
  suggestion_tip : string;
  suggestion_activity : cell;
  suggestion_sound : cell;
  suggestion_timestamp : Z
}.

Record database : Type := mkDatabase {
  mood_history : list mood_row;
  chat_history : list chat_row;
  suggestions : list suggestion_row
}.

Definition empty_database : database := mkDatabase [] [] [].

(** [init_db()]: [CREATE TABLE IF NOT EXISTS] on a file that may not exist
    yet. *)
Definition init_db (file : option database) : database :=
  match file with
  | Some db => db
  | None => empty_database
  end.

(** INTEGER PRIMARY KEY AUTOINCREMENT *)
Definition next_id (ids : list Z) : Z := 1 + fold_right Z.max 0 ids.

(** Binding a Python value to a statement parameter stored in a TEXT column:
    [None] is NULL, a [str] is kept, a list or dict is refused by [sqlite3]
    (the execute call raises). *)
Definition bind_text (E : externals) (v : json) : option cell :=
  match v with
  | JNull => Some None
  | JStr s => Some (Some s)
  | JBool _ | JNum _ =>
      match number_text E v with
      | Some t => Some (Some t)
      | None => None
      end
  | JArr _ | JObj _ => None
  end.

(** Binding to a TEXT NOT NULL column: NULL violates the constraint. *)
Definition bind_text_not_null (E : externals) (v : json) : option string :=
  match bind_text E v with
  | Some (Some s) => Some s
  | _ => None
  end.

(** [INSERT INTO mood_history (emotion, confidence, session_id)] *)
Definition insert_mood (E : externals) (db : database) (emotion : string)
           (confidence : Q) (session_id : json) (exec : execution) : option database :=
  match bind_text E session_id, exec with
  | Some sid, Runs now =>
      let row := mkMoodRow (next_id (map mood_id (mood_history db)))
                           emotion confidence now sid in
      Some (mkDatabase (mood_history db ++ [row]) (chat_history db) (suggestions db))
  | _, _ => None
  end.

(** [INSERT INTO suggestions (emotion, message, tip, activity, sound)] *)
Definition insert_suggestion (E : externals) (db : database) (emotion : string)
           (message tip activity sound : json) (exec : execution) : option database :=
  match bind_text_not_null E message, bind_text_not_null E tip,
        bind_text E activity, bind_text E sound, exec with
  | Some m, Some t, Some a, Some s, Runs now =>
      let row := mkSuggestionRow (next_id (map suggestion_id (suggestions db)))
                                 emotion m t a s now in
      Some (mkDatabase (mood_history db) (chat_history db) (suggestions db ++ [row]))
  | _, _, _, _, _ => None
  end.

(** [INSERT INTO chat_history (message, sender, mood, session_id)] *)
Definition insert_chat (E : externals) (db : database) (message : json)
           (sender : string) (mood session_id : json) (exec : execution) : option database :=
  match bind_text_not_null E message, bind_text E mood, bind_text E session_id, exec with
  | Some msg, Some md, Some sid, Runs now =>
      let row := mkChatRow (next_id (map chat_id (chat_history db)))
                           msg sender md now sid in
      Some (mkDatabase (mood_history db) (chat_history db ++ [row]) (suggestions db))
  | _, _, _, _ => None
  end.

(** *** Queries *)

(** [column = ?] against a text parameter: NULL equals nothing. *)
Definition cell_is (param : string) (c : cell) : bool :=
  match c with
  | Some s => String.eqb s param
  | None => false
  end.

Fixpoint insert_sorted {A : Type} (leb : A -> A -> bool) (x : A) (l : list A) : list A :=
  match l with
  | [] => [x]
  | y :: l' => if leb x y then x :: l else y :: insert_sorted leb x l'
  end.

(** [ORDER BY]: rows that compare equal keep their insertion order (SQLite
    promises no order among them; nothing below depends on it). *)
Definition order_by {A : Type} (leb : A -> A -> bool) (l : list A) : list A :=
  fold_right (insert_sorted leb) [] l.

(** [LIMIT ?]: a negative bound means no bound. *)
Definition sql_limit {A : Type} (limit : Z) (rows : list A) : list A :=
  if limit <? 0 then rows else firstn (Z.to_nat limit) rows.

(** An [int] parameter must fit SQLite's 64-bit INTEGER, or binding raises
    [OverflowError]. *)
Definition fits_int64 (n : Z) : bool :=
  (- 2 ^ 63 <=? n) && (n <? 2 ^ 63).

(** [SELECT ... FROM mood_history WHERE session_id = ? ORDER BY timestamp
    DESC LIMIT ?] *)
Definition select_mood_history (db : database) (session_id : string) (limit : Z)
  : option (list mood_row) :=
  if fits_int64 limit then
    Some (sql_limit limit
            (order_by (fun a b => mood_timestamp b <=? mood_timestamp a)
               (filter (fun r => cell_is session_id (mood_session_id r))
                       (mood_history db))))
  else None.

(** [SELECT ... FROM chat_history WHERE session_id = ? ORDER BY timestamp ASC
    LIMIT ?] *)
Definition select_chat_history (db : database) (session_id : string) (limit : Z)
  : option (list chat_row) :=
  if fits_int64 limit then
    Some (sql_limit limit
            (order_by (fun a b => chat_timestamp a <=? chat_timestamp b)
               (filter (fun r => cell_is session_id (chat_session_id r))
                       (chat_history db))))
  else None.

(** ** Answers *)

(** A float is modelled by the rational it denotes.  [round(x, 2)] works in
    two steps: the exact value of [x] is rounded to two decimals, ties to the
    even digit, and that decimal is converted back to the closest double. *)

(** The integer closest to [q], ties to the even one. *)
Definition round_half_even (q : Q) : Z :=
  let low := Qfloor q in
  match (q - inject_Z low ?= 1 # 2)%Q with
  | Lt => low
  | Gt => low + 1
  | Eq => if Z.even low then low else low + 1
  end.

(** The closest multiple of one hundredth, ties to the even one. *)
Definition decimal_round2 (x : Q) : Q := round_half_even (x * 100) # 100.

(** [2 ^ e] for an integer exponent. *)
Definition pow2 (e : Z) : Q :=
  if 0 <=? e then inject_Z (2 ^ e) else 1 # Z.to_pos (2 ^ (- e)).

(** The double closest to a positive rational [n / d], ties to the even
    significand: the exponent [e] puts the quotient on 53 bits (the spacing
    of the subnormals, [2 ^ -1074], is the finest), the significand is the
    closest integer.  (Magnitudes that would overflow do not occur as
    roundings of a double.) *)
Definition nearest_double_pos (q : Q) : Q :=
  let c := Z.log2 (Qnum q) - Z.log2 (Zpos (Qden q)) in
  let binade := if Qle_bool (pow2 c) q then c else c - 1 in
  let e := Z.max (binade - 52) (- 1074) in
  (inject_Z (round_half_even (q / pow2 e)) * pow2 e)%Q.

(** The double closest to a rational. *)
Definition nearest_double (q : Q) : Q :=
  match Qnum q with
  | Z0 => 0%Q
  | Zpos _ => nearest_double_pos q
  | Zneg _ => (- nearest_double_pos (- q))%Q
  end.

(** [round(x, 2)] *)
Definition py_round2 (x : Q) : Q := nearest_double (decimal_round2 x).

Record mood_entry : Type := mkMoodEntry {
  entry_emotion : string;
  entry_confidence : Q;
  entry_timestamp : Z
}.

Record chat_entry : Type := mkChatEntry {
  entry_message : string;
  entry_sender : string;
  entry_mood : cell;
  entry_chat_timestamp : Z
}.

(** The dict built from one fetched row of [mood_history]. *)
Definition mood_entry_of (row : mood_row) : mood_entry :=
  mkMoodEntry (mood_emotion row) (mood_confidence row) (mood_timestamp row).

(** The dict built from one fetched row of [chat_history]. *)
Definition chat_entry_of (row : chat_row) : chat_entry :=
  mkChatEntry (chat_message row) (chat_sender row) (chat_mood row) (chat_timestamp row).

(** What a handler returns: the JSON body of a 200 answer, by route, or an
    [{'error': ...}] body with its status. *)
Inductive response : Type :=
| DetectionOk (emotion : string) (confidence : Q) (message tip activity sound : json)
| ChatOk (reply : string) (timestamp : string)
| MoodHistoryOk (history : list mood_entry)
| ChatHistoryOk (history : list chat_entry)
| HealthOk (status : string) (timestamp : string) (gemini_configured : bool)
| Failure (status : Z) (error : string).

Definition internal_server_error : response := Failure 500 "Internal server error".

(** The query string of a GET request: the raw values of the two parameters
    the history routes read. *)
Record query_args : Type := mkArgs {
  arg_session_id : option string;
  arg_limit : option string
}.

(** [request.args.get(key, default, type=int)]: the default also replaces a
    value [int] rejects. *)
Definition args_get_int (E : externals) (raw : option string) (default : Z) : Z :=
  match raw with
  | Some s =>
      match py_int E s with
      | Some n => n
      | None => default
      end
  | None => default
  end.

(** [request.args.get(key, default)] *)
Definition args_get (raw : option string) (default : string) : string :=
  match raw with
  | Some s => s
  | None => default
  end.

(** ** Handlers

    A handler takes what [request.get_json()] gives ([None] when it raises,
    [Some JNull] when it returns [None]), the store and what the store does
    with the statements that open its transactions, and returns its answer
    with the store it leaves. *)

(** [POST /detect].  Each insert is committed on its own connection, so a
    failure after the first one leaves the mood row in place. *)
Definition detect_mood (E : externals) (body : option json) (db : database)
           (mood_exec suggestion_exec : execution) : response * database :=
  match body with
  | None => (internal_server_error, db)
  | Some data =>
      if negb (truthy data) then (Failure 400 "No image provided", db)
      else
        match py_in "image" data with
        | None => (internal_server_error, db)
        | Some false => (Failure 400 "No image provided", db)
        | Some true =>
            match py_getitem data "image" with
            | None => (internal_server_error, db)
            | Some image_value =>
                match decode_base64_image E image_value with
                | None => (Failure 400 "Invalid image format", db)
                | Some img =>
                    match detect_emotion E img with
                    | (None, _) => (Failure 400 "No face detected", db)
                    | (Some emotion, confidence) =>
                        match py_get data "session_id" (JStr "default") with
                        | None => (internal_server_error, db)
                        | Some session_id =>
                            match insert_mood E db emotion confidence session_id mood_exec with
                            | None => (internal_server_error, db)
                            | Some db1 =>
                                let suggestion := get_therapeutic_suggestion E emotion true in
                                match py_getitem suggestion "message",
                                      py_getitem suggestion "tip",
                                      py_get suggestion "activity" (JStr ""),
                                      py_get suggestion "sound" (JStr "") with
                                | Some message, Some tip, Some activity, Some sound =>
                                    match insert_suggestion E db1 emotion message tip
                                                            activity sound suggestion_exec with
                                    | None => (internal_server_error, db1)
                                    | Some db2 =>
                                        (DetectionOk emotion (py_round2 confidence)
                                                     message tip activity sound, db2)
                                    end
                                | _, _, _, _ => (internal_server_error, db1)
                                end
                            end
                        end
                    end
                end
            end
        end
  end.

(** [POST /chat].  Both inserts run on one connection and are committed
    together; an exception before the commit leaves the store as it was.  The
    first insert opens the transaction; the second runs inside it. *)
Definition chat (E : externals) (body : option json) (db : database)
           (user_exec : execution) (now_therapist : Z) (now : datetime E)
  : response * database :=
  match body with
  | None => (internal_server_error, db)
  | Some data =>
      if negb (truthy data) then (Failure 400 "No message provided", db)
      else
        match py_in "message" data with
        | None => (internal_server_error, db)
        | Some false => (Failure 400 "No message provided", db)
        | Some true =>
            match py_getitem data "message",
                  py_get data "mood" JNull,
                  py_get data "chat_history" (JArr []),
                  py_get data "session_id" (JStr "default") with
            | Some user_message, Some mood, Some history, Some session_id =>
                match insert_chat E db user_message "user" mood session_id user_exec with
                | None => (internal_server_error, db)
                | Some db1 =>
                    let ai_response := get_chat_response E user_message mood history in
                    match insert_chat E db1 (JStr ai_response) "therapist" mood
                                      session_id (Runs now_therapist) with
                    | None => (internal_server_error, db)
                    | Some db2 => (ChatOk ai_response (isoformat E now), db2)
                    end
                end
            | _, _, _, _ => (internal_server_error, db)
            end
        end
  end.

(** [GET /mood-history] *)
Definition get_mood_history (E : externals) (args : query_args) (db : database)
  : response * database :=
  let session_id := args_get (arg_session_id args) "default" in
  let limit := args_get_int E (arg_limit args) 50 in
  match select_mood_history db session_id limit with
  | Some rows =>
      (MoodHistoryOk (map mood_entry_of rows), db)
  | None => (internal_server_error, db)
  end.

(** [GET /chat-history] *)
Definition get_chat_history (E : externals) (args : query_args) (db : database)
  : response * database :=
  let session_id := args_get (arg_session_id args) "default" in
  let limit := args_get_int E (arg_limit args) 100 in
  match select_chat_history db session_id limit with
  | Some rows =>
      (ChatHistoryOk (map chat_entry_of rows), db)
  | None => (internal_server_error, db)
  end.

(** [GET /health] *)
Definition health_check (E : externals) (db : database) (now : datetime E)
  : response * database :=
  (HealthOk "healthy" (isoformat E now)
            (match model E with Some _ => true | None => false end), db).

(** ** Sample collaborators, for concrete runs *)

(** Signed decimal numerals, the part of [int(s)] the samples need. *)
Fixpoint parse_digits (s : string) (acc : Z) : option Z :=
  match s with
  | EmptyString => Some acc
  | String c s' =>
      let n := Z.of_nat (nat_of_ascii c) in
      if (48 <=? n) && (n <=? 57) then parse_digits s' (10 * acc + (n - 48))
      else None
  end.

Definition parse_decimal (s : string) : option Z :=
  match s with
  | EmptyString => None
  | String "-"%char EmptyString => None
  | String "-"%char s' => option_map Z.opp (parse_digits s' 0)
  | _ => parse_digits s 0
  end.

(** Collaborators over a one-point image type: the classifier always reports
    [faces], the text generator is [llm], [json.loads] is [loads]. *)
Definition sample_externals (faces : option (list face))
           (llm : option (string -> llm_outcome))
           (loads : string -> option json) : externals :=
  mkExternals unit (fun _ => faces) (fun _ => Some tt) llm loads
              (fun _ => "?") (fun _ => None) parse_decimal
              unit (fun _ => "2024-05-01T12:00:00").

Definition sample_face : face :=
  mkFace (0, 0, 48, 48) [("angry", 0.03125); ("happy", 0.875); ("sad", 0.09375)]%Q.

Definition other_face : face :=
  mkFace (60, 0, 48, 48) [("sad", 0.984375); ("happy", 0.015625)]%Q.

(** ** Vocabulary of the properties *)

(** The seven keys of [fallback_suggestions]. *)
Definition known_labels : list string :=
  ["happy"; "sad"; "angry"; "fear"; "surprise"; "disgust"; "neutral"].

(** The text generator gives no text for [prompt]: it is not configured, or
    the call (or reading its text) raises. *)
Definition llm_unavailable (E : externals) (prompt : string) : Prop :=
  match model E with
  | None => True
  | Some generate_content =>
      match generate_content prompt with
      | Text _ => False
      | _ => True
      end
  end.

(** The text generated for [prompt] is not JSON. *)
Definition llm_unparseable (E : externals) (prompt : string) : Prop :=
  match model E with
  | None => False
  | Some generate_content =>
      match generate_content prompt with
      | Text text => json_loads E text = None
      | _ => False
      end
  end.

(** A request to [/detect] that passes validation: the body is an object
    with an image that decodes, the classifier yields [emotion] with
    [confidence], and the session identifier is stored as [session]. *)
Definition detected (E : externals) (body : option json) (emotion : string)
           (confidence : Q) (session : cell) : Prop :=
  exists d v img,
    body = Some (JObj d) /\
    dict_get d "image" = Some v /\
    decode_base64_image E v = Some img /\
    detect_emotion E img = (Some emotion, confidence) /\
    bind_text E (dict_get_default d "session_id" (JStr "default")) = Some session.

(** The store after the mood observation of a detection is written. *)
Definition with_mood_row (db : database) (emotion : string) (confidence : Q)
           (now : Z) (session : cell) : database :=
  mkDatabase
    (mood_history db ++
       [mkMoodRow (next_id (map mood_id (mood_history db))) emotion confidence now session])
    (chat_history db) (suggestions db).

(** A suggestion made of four texts. *)
Definition text_suggestion (message tip activity sound : string) : json :=
  JObj [("message", JStr message); ("tip", JStr tip);
        ("activity", JStr activity); ("sound", JStr sound)].

(** A sample request body for [/detect]. *)
Definition sample_detect_body : option json :=
  Some (JObj [("image", JStr "data:image/png;base64,iVBORw0KGgo="); ("session_id", JStr "s1")]).

(** The classifier gives no emotion for an image: it reports no face, or it
    raises, or the first face it reports has an empty score mapping. *)
Definition no_emotion (E : externals) (img : image E) : Prop :=
  detect_emotions E img = None \/
  detect_emotions E img = Some [] \/
  exists first others,
    detect_emotions E img = Some (first :: others) /\ emotions first = [].

(** An answer with status 400 and an error field. *)
Definition client_error (r : response) : Prop :=
  exists error, r = Failure 400 error.

(** An answer with status 200. *)
Definition success (r : response) : Prop :=
  match r with
  | Failure _ _ => False
  | _ => True
  end.

(** [request.get_json()] returned [None] or a JSON object. *)
Definition absent_or_object (body : option json) : Prop :=
  body = Some JNull \/ exists d, body = Some (JObj d).

(** The conditions under which [/detect] refuses a request. *)
Definition image_missing (body : option json) : Prop :=
  body = Some JNull \/ exists d, body = Some (JObj d) /\ dict_get d "image" = None.

Definition image_undecodable (E : externals) (body : option json) : Prop :=
  exists d v,
    body = Some (JObj d) /\ dict_get d "image" = Some v /\
    decode_base64_image E v = None.

Definition no_face_detected (E : externals) (body : option json) : Prop :=
  exists d v img,
    body = Some (JObj d) /\ dict_get d "image" = Some v /\
    decode_base64_image E v = Some img /\ no_emotion E img.

(** Rows listed from the newest to the oldest. *)
Definition newest_first (rows : list mood_row) : Prop :=
  StronglySorted (fun a b => mood_timestamp b <= mood_timestamp a) rows.

(** Rows listed from the oldest to the newest. *)
Definition oldest_first (rows : list chat_row) : Prop :=
  StronglySorted (fun a b => chat_timestamp a <= chat_timestamp b) rows.

(** A store with three observations of session [s1] and one of [s2]. *)
Definition sample_store : database :=
  mkDatabase
    [ mkMoodRow 1 "happy" 0.875 10 (Some "s1");
      mkMoodRow 2 "sad" 0.625 20 (Some "s2");
      mkMoodRow 3 "neutral" 0.5 30 (Some "s1");
      mkMoodRow 4 "happy" 0.75 40 (Some "s1") ]%Q
    [ mkChatRow 1 "hello" "user" None 11 (Some "s1");
      mkChatRow 2 "I'm here." "therapist" None 12 (Some "s1") ]
    [].

(** The fields of a [/chat] body [d] as the handler reads and stores them:
    the message, bound to [text]; the mood and the session identifier, bound
    to [mood] and [session]. *)
Definition chat_fields_stored (E : externals) (d : list (string * json)) (message : json)
           (text : string) (mood session : cell) : Prop :=
  dict_get d "message" = Some message /\
  bind_text_not_null E message = Some text /\
  bind_text E (dict_get_default d "mood" JNull) = Some mood /\
  bind_text E (dict_get_default d "session_id" (JStr "default")) = Some session.

(** The reply computed for a [/chat] body [d]. *)
Definition chat_reply_for (E : externals) (d : list (string * json)) (message : json) : string :=
  get_chat_response E message (dict_get_default d "mood" JNull)
                    (dict_get_default d "chat_history" (JArr [])).

(** The store after the two turns of a chat call are written. *)
Definition with_chat_rows (db : database) (text reply : string) (mood session : cell)
           (now_user now_therapist : Z) : database :=
  let user_id := next_id (map chat_id (chat_history db)) in
  let user_row := mkChatRow user_id text "user" mood now_user session in
  let therapist_id := next_id (map chat_id (chat_history db ++ [user_row])) in
  mkDatabase (mood_history db)
             ((chat_history db ++ [user_row]) ++
                [mkChatRow therapist_id reply "therapist" mood now_therapist session])
             (suggestions db).

(** The generator returns no text, whatever the prompt. *)
Definition llm_always_fails (generate_content : string -> llm_outcome) : Prop :=
  forall prompt text, generate_content prompt <> Text text.

(** The prompt [get_chat_response] sends to the text generator, when it
    gets as far as sending one: [None] when the prior turns cannot be read. *)
Definition chat_prompt_for (E : externals) (message mood history : json) : option string :=
  match build_context E history with
  | None => None
  | Some context =>
      Some (chat_prompt
              (if truthy mood
               then "The person's current detected mood is: " ++ py_format E mood
               else "")
              context (py_format E message))
  end.

(** A sample body for [/chat]. *)
Definition sample_chat_body : option json :=
  Some (JObj [("message", JStr "hello"); ("mood", JStr "sad"); ("session_id", JStr "s1")]).

(** [new] holds every row of [old], unchanged and at the same place, followed
    by the rows written since. *)
Definition extends (old new : database) : Prop :=
  (exists rows, mood_history new = (mood_history old ++ rows)%list) /\
  (exists rows, chat_history new = (chat_history old ++ rows)%list) /\
  (exists rows, suggestions new = (suggestions old ++ rows)%list).

(** ** Vocabulary of the further properties *)

(** A face whose two best labels tie. *)
Definition tied_face : face :=
  mkFace (0, 0, 48, 48) [("angry", 0.125); ("sad", 0.4375); ("happy", 0.4375)]%Q.

(** Collaborators whose text generator answers [text], parsed as [parsed]. *)
Definition answering_externals (text : string) (parsed : option json) : externals :=
  sample_externals (Some [sample_face; other_face]) (Some (fun _ => Text text))
                   (fun _ => parsed).

(** The conditions under which [/chat] refuses a request. *)
Definition message_missing (body : option json) : Prop :=
  body = Some JNull \/ exists d, body = Some (JObj d) /\ dict_get d "message" = None.

(** Six prior turns, the oldest of them malformed. *)
Definition sample_turns : list json :=
  [ JStr "not a turn";
    JObj [("sender", JStr "user"); ("text", JStr "hi")];
    JObj [("sender", JStr "therapist"); ("text", JStr "hello")];
    JObj [("sender", JStr "user"); ("text", JStr "I feel low")];
    JObj [("sender", JStr "therapist"); ("text", JStr "tell me more")];
    JObj [("sender", JStr "user"); ("text", JStr "work is hard")] ].

(** A generator that repeats the prompt it is given. *)
Definition echo_externals : externals :=
  sample_externals None (Some (fun prompt => Text prompt)) (fun _ => None).

(** The session identifier a POST body asks for, as it would be stored:
    [None] when the body is no object or the value cannot be bound. *)
Definition requested_session (E : externals) (body : option json) : option cell :=
  match body with
  | Some (JObj d) => bind_text E (dict_get_default d "session_id" (JStr "default"))
  | _ => None
  end.

(** The rows of a session in each history table. *)
Definition session_moods (db : database) (session : string) : list mood_row :=
  filter (fun r => cell_is session (mood_session_id r)) (mood_history db).

Definition session_chats (db : database) (session : string) : list chat_row :=
  filter (fun r => cell_is session (chat_session_id r)) (chat_history db).

(** The primary keys of each table are pairwise distinct. *)
Definition keys_unique (db : database) : Prop :=
  NoDup (map mood_id (mood_history db)) /\
  NoDup (map chat_id (chat_history db)) /\
  NoDup (map suggestion_id (suggestions db)).

(** A query with no effective bound on a table of [size] rows. *)
Definition unbounded (limit : Z) (size : nat) : Prop :=
  limit < 0 \/ Z.of_nat size <= limit.

(** * Verified properties *)

(** ** Dictionaries and the maximum *)

Lemma dict_get_in_keys {V : Type} (d : list (string * V)) (k : string) (v : V) :
  dict_get d k = Some v -> In k (dict_keys d).
Proof.
  induction d as [|[k' v'] d IH]; simpl; [discriminate|].
  destruct (String.eqb_spec k' k) as [->|Hne]; intros H.
  - now left.
  - right. now apply IH.
Qed.

Lemma in_keys_dict_get {V : Type} (d : list (string * V)) (k : string) :
  In k (dict_keys d) -> exists v, dict_get d k = Some v.
Proof.
  induction d as [|[k' v'] d IH]; simpl; [tauto|].
  intros [Heq|Hin].
  - subst. rewrite String.eqb_refl. eauto.
  - destruct (String.eqb k' k); eauto.
Qed.

Lemma Qltb_false_le (a b : Q) : Qltb a b = false -> (b <= a)%Q.
Proof.
  unfold Qltb. intros H. apply negb_false_iff in H. now apply Qle_bool_iff.
Qed.

Lemma Qltb_true_lt (a b : Q) : Qltb a b = true -> (a < b)%Q.
Proof.
  unfold Qltb. intros H. apply negb_true_iff in H.
  apply Qnot_le_lt. intros Hle. apply Qle_bool_iff in Hle. congruence.
Qed.

(** The loop of [max] ends on an element whose key bounds the start value
    and the key of every element it went through. *)
Lemma max_loop_spec (key : string -> option Q) (rest : list string) :
  forall best bestv,
    key best = Some bestv ->
    (forall k, In k rest -> exists v, key k = Some v) ->
    exists top topv,
      max_loop key best bestv rest = Some top /\
      key top = Some topv /\
      (top = best \/ In top rest) /\
      (bestv <= topv)%Q /\
      (forall k v, In k rest -> key k = Some v -> (v <= topv)%Q).
Proof.
  induction rest as [|k rest IH]; intros best bestv Hbest Hdef; simpl.
  - exists best, bestv. repeat split; auto using Qle_refl. intros ? ? [].
  - destruct (Hdef k (or_introl eq_refl)) as [v Hv]. rewrite Hv.
    assert (Hdef' : forall k0, In k0 rest -> exists v0, key k0 = Some v0)
      by (intros; apply Hdef; now right).
    destruct (Qltb bestv v) eqn:Hcmp.
    + destruct (IH k v Hv Hdef') as (top & topv & Hrun & Hkey & Hin & Hge & Hall).
      exists top, topv. repeat split; auto.
      * destruct Hin as [->|Hin]; right; [now left | now right].
      * apply Qltb_true_lt in Hcmp.
        eapply Qle_trans; [apply Qlt_le_weak; eassumption | assumption].
      * intros k0 v0 [->|Hin0] Hk0; [|eauto].
        rewrite Hv in Hk0. injection Hk0 as <-. assumption.
    + destruct (IH best bestv Hbest Hdef') as (top & topv & Hrun & Hkey & Hin & Hge & Hall).
      exists top, topv. repeat split; auto.
      * destruct Hin as [->|Hin]; [now left | right; now right].
      * intros k0 v0 [->|Hin0] Hk0; [|eauto].
        rewrite Hv in Hk0. injection Hk0 as <-.
        apply Qltb_false_le in Hcmp. eapply Qle_trans; eassumption.
Qed.

Lemma py_max_spec (d : list (string * Q)) :
  d <> [] ->
  exists top topv,
    py_max (dict_get d) (dict_keys d) = Some top /\
    dict_get d top = Some topv /\
    (forall k v, dict_get d k = Some v -> (v <= topv)%Q).
Proof.
  destruct d as [|[k0 v0] d]; [congruence|]. intros _.
  assert (Hk0 : dict_get ((k0, v0) :: d) k0 = Some v0)
    by (simpl; now rewrite String.eqb_refl).
  assert (Hdef : forall k, In k (dict_keys d) ->
                           exists v, dict_get ((k0, v0) :: d) k = Some v).
  { intros k Hin. apply in_keys_dict_get. now right. }
  destruct (max_loop_spec (dict_get ((k0, v0) :: d)) (dict_keys d) k0 v0 Hk0 Hdef)
    as (top & topv & Hrun & Hkey & _ & Hge & Hall).
  exists top, topv. split; [|split; [assumption|]].
  - unfold py_max, dict_keys. cbn [map fst]. rewrite Hk0. exact Hrun.
  - intros k v Hget. pose proof (dict_get_in_keys _ _ _ Hget) as [Heq|Hin].
    + simpl in Heq. subst k. rewrite Hk0 in Hget. injection Hget as <-. assumption.
    + eauto.
Qed.

(** C1. When the classifier reports a face whose score mapping is not empty,
    [detect_emotion] returns a label of that mapping whose score is at least
    every score of the mapping, together with that label's score as the
    confidence.  (The face is the first one reported; compare C10.) *)
Theorem detect_emotion_dominant (E : externals) (img : image E)
        (first : face) (others : list face) :
  detect_emotions E img = Some (first :: others) ->
  emotions first <> [] ->
  exists label score,
    detect_emotion E img = (Some label, score) /\
    dict_get (emotions first) label = Some score /\
    (forall l s, dict_get (emotions first) l = Some s -> (s <= score)%Q).
Proof.
  intros Hfaces Hne.
  destruct (py_max_spec (emotions first) Hne) as (top & topv & Hmax & Hget & Hall).
  exists top, topv. unfold detect_emotion. rewrite Hfaces. cbv zeta.
  rewrite Hmax, Hget. auto.
Qed.

Lemma detect_emotion_dominant_witness :
  let E := sample_externals (Some [sample_face; other_face]) None (fun _ => None) in
  detect_emotions E tt = Some [sample_face; other_face] /\
  emotions sample_face <> [] /\
  exists label score,
    detect_emotion E tt = (Some label, score) /\
    dict_get (emotions sample_face) label = Some score /\
    (forall l s, dict_get (emotions sample_face) l = Some s -> (s <= score)%Q).
Proof.
  cbv zeta. split; [reflexivity|]. split; [discriminate|].
  apply (detect_emotion_dominant
           (sample_externals (Some [sample_face; other_face]) None (fun _ => None))
           tt sample_face [other_face]); [reflexivity | discriminate].
Defined.

Example detect_emotion_sample :
  detect_emotion (sample_externals (Some [sample_face; other_face]) None (fun _ => None)) tt
  = (Some "happy", 0.875%Q).
Proof. vm_compute. reflexivity. Qed.

(** C10. Two classifier outputs whose first faces carry the same score
    mapping give the same emotion and confidence, whatever faces follow: the
    mappings (and boxes) of the other faces are never read. *)
Theorem detect_emotion_first_face_only (E1 E2 : externals)
        (img1 : image E1) (img2 : image E2)
        (first1 first2 : face) (others1 others2 : list face) :
  detect_emotions E1 img1 = Some (first1 :: others1) ->
  detect_emotions E2 img2 = Some (first2 :: others2) ->
  emotions first1 = emotions first2 ->
  detect_emotion E1 img1 = detect_emotion E2 img2.
Proof.
  intros H1 H2 Hsame. unfold detect_emotion. rewrite H1, H2, Hsame. reflexivity.
Qed.

Lemma detect_emotion_first_face_only_witness :
  let E1 := sample_externals (Some [sample_face; other_face]) None (fun _ => None) in
  let E2 := sample_externals (Some [sample_face]) None (fun _ => None) in
  detect_emotions E1 tt = Some [sample_face; other_face] /\
  detect_emotions E2 tt = Some [sample_face] /\
  emotions sample_face = emotions sample_face /\
  detect_emotion E1 tt = detect_emotion E2 tt.
Proof.
  cbv zeta. repeat (split; [reflexivity|]).
  apply (detect_emotion_first_face_only
           (sample_externals (Some [sample_face; other_face]) None (fun _ => None))
           (sample_externals (Some [sample_face]) None (fun _ => None))
           tt tt sample_face sample_face [other_face] []); reflexivity.
Defined.

(** ** Suggestions *)

Example known_labels_are_the_keys : dict_keys fallback_suggestions = known_labels.
Proof. reflexivity. Qed.

Lemma fallback_neutral_entry : fallback_neutral = neutral_suggestion.
Proof. reflexivity. Qed.

(** Without [use_gemini] the function is the table lookup. *)
Lemma suggestion_without_gemini (E : externals) (emotion : string) :
  get_therapeutic_suggestion E emotion false
  = dict_get_default fallback_suggestions emotion fallback_neutral.
Proof. reflexivity. Qed.

Lemma fallback_lookup_unknown (emotion : string) :
  ~ In emotion known_labels ->
  dict_get_default fallback_suggestions emotion fallback_neutral = neutral_suggestion.
Proof.
  intros Hnot. unfold dict_get_default, fallback_suggestions, dict_get.
  repeat match goal with
         | |- context [String.eqb ?k emotion] =>
             destruct (String.eqb_spec k emotion) as [Heq|_];
             [exfalso; apply Hnot; rewrite <- Heq; simpl; tauto|]
         end.
  reflexivity.
Qed.

Lemma fallback_lookup_known (emotion : string) (entry : json) :
  In (emotion, entry) fallback_suggestions ->
  dict_get_default fallback_suggestions emotion fallback_neutral = entry.
Proof.
  intros Hin. simpl in Hin.
  repeat destruct Hin as [Hin|Hin]; try contradiction;
    injection Hin as <- <-; reflexivity.
Qed.

(** The table lookup is reached without [use_gemini] and whenever the text
    generator gives no text. *)
Lemma suggestion_from_table (E : externals) (emotion : string) (use_gemini : bool) :
  use_gemini = false \/ llm_unavailable E (suggestion_prompt emotion) ->
  get_therapeutic_suggestion E emotion use_gemini
  = dict_get_default fallback_suggestions emotion fallback_neutral.
Proof.
  intros [->|Hun]; [reflexivity|].
  unfold llm_unavailable in Hun. unfold get_therapeutic_suggestion.
  destruct use_gemini; [|reflexivity].
  destruct (model E) as [g|]; [|reflexivity].
  destruct (g (suggestion_prompt emotion)); [reflexivity | reflexivity | contradiction].
Qed.

(** Each of the seven labels has an entry of its own in the table: the
    lookup finds it, and no two labels share their entry. *)
Lemma fallback_entries_own (emotion : string) :
  In emotion known_labels ->
  exists entry,
    dict_get fallback_suggestions emotion = Some entry /\
    dict_get_default fallback_suggestions emotion fallback_neutral = entry /\
    forall other, In other known_labels -> other <> emotion ->
                  dict_get fallback_suggestions other <> Some entry.
Proof.
  intros Hin. simpl in Hin.
  repeat destruct Hin as [<-|Hin]; try contradiction;
    (eexists; split; [reflexivity|]; split; [reflexivity|];
     intros other Hother Hne; simpl in Hother;
     repeat destruct Hother as [<-|Hother]; try contradiction;
     solve [congruence | cbn; discriminate]).
Qed.

(** C4. Whenever [get_therapeutic_suggestion] reaches its fallback lookup
    (it is called without [use_gemini], or the text generator is not
    configured or fails), it returns the [neutral] entry for every label that
    is not one of the seven keys of the table; for each of the seven labels
    it returns the entry the table holds under that label, which is the entry
    of no other label. *)
Theorem fallback_suggestion_lookup (E : externals) (emotion : string) (use_gemini : bool) :
  use_gemini = false \/ llm_unavailable E (suggestion_prompt emotion) ->
  (~ In emotion known_labels ->
   get_therapeutic_suggestion E emotion use_gemini = neutral_suggestion) /\
  (In emotion known_labels ->
   exists entry,
     dict_get fallback_suggestions emotion = Some entry /\
     get_therapeutic_suggestion E emotion use_gemini = entry /\
     forall other, In other known_labels -> other <> emotion ->
                   dict_get fallback_suggestions other <> Some entry).
Proof.
  intros Hreached. rewrite (suggestion_from_table _ _ _ Hreached). split.
  - apply fallback_lookup_unknown.
  - apply fallback_entries_own.
Qed.

Lemma fallback_suggestion_lookup_witness :
  let E := sample_externals None None (fun _ => None) in
  (true = false \/ llm_unavailable E (suggestion_prompt "bored")) /\
  ~ In "bored" known_labels /\
  In "angry" known_labels /\
  get_therapeutic_suggestion E "bored" true = neutral_suggestion /\
  get_therapeutic_suggestion E "angry" false = angry_suggestion.
Proof.
  cbv zeta.
  assert (Hnot : ~ In "bored" known_labels)
    by (simpl; intros H; repeat destruct H as [H|H]; try discriminate; exact H).
  assert (Hin : In "angry" known_labels) by (simpl; tauto).
  split; [right; exact I|]. split; [exact Hnot|]. split; [exact Hin|]. split.
  - exact (proj1 (fallback_suggestion_lookup
                    (sample_externals None None (fun _ => None)) "bored" true
                    (or_intror I)) Hnot).
  - destruct (proj2 (fallback_suggestion_lookup
                       (sample_externals None None (fun _ => None)) "angry" false
                       (or_introl eq_refl)) Hin)
      as (entry & Hget & Hrun & _).
    rewrite Hrun. cbn in Hget. now injection Hget as <-.
Defined.

(** The lookup on each of the seven labels. *)
Example fallback_entries :
  map (fun label => dict_get_default fallback_suggestions label fallback_neutral) known_labels
  = [happy_suggestion; sad_suggestion; angry_suggestion; fear_suggestion;
     surprise_suggestion; disgust_suggestion; neutral_suggestion].
Proof. reflexivity. Qed.

(** ** The detection handler *)

Lemma dict_get_existsb {V : Type} (d : list (string * V)) (k : string) (v : V) :
  dict_get d k = Some v -> existsb (String.eqb k) (dict_keys d) = true.
Proof.
  intros H. apply existsb_exists. exists k. split.
  - eapply dict_get_in_keys; eassumption.
  - apply String.eqb_refl.
Qed.

Lemma existsb_dict_get {V : Type} (d : list (string * V)) (k : string) :
  existsb (String.eqb k) (dict_keys d) = true -> exists v, dict_get d k = Some v.
Proof.
  intros H. apply existsb_exists in H. destruct H as (k' & Hin & Heq).
  apply String.eqb_eq in Heq. subst k'. now apply in_keys_dict_get.
Qed.

(** A validated request runs up to the suggestion step with the mood row
    written. *)
Lemma detect_mood_detected (E : externals) (body : option json) (db : database)
      (now_mood : Z) (suggestion_exec : execution)
      (emotion : string) (confidence : Q) (session : cell) :
  detected E body emotion confidence session ->
  detect_mood E body db (Runs now_mood) suggestion_exec =
  let db1 := with_mood_row db emotion confidence now_mood session in
  let suggestion := get_therapeutic_suggestion E emotion true in
  match py_getitem suggestion "message", py_getitem suggestion "tip",
        py_get suggestion "activity" (JStr ""), py_get suggestion "sound" (JStr "") with
  | Some message, Some tip, Some activity, Some sound =>
      match insert_suggestion E db1 emotion message tip activity sound suggestion_exec with
      | None => (internal_server_error, db1)
      | Some db2 =>
          (DetectionOk emotion (py_round2 confidence) message tip activity sound, db2)
      end
  | _, _, _, _ => (internal_server_error, db1)
  end.
Proof.
  intros (d & v & img & -> & Himage & Hdecode & Hdetect & Hbind).
  unfold detect_mood.
  assert (Htruthy : truthy (JObj d) = true)
    by (destruct d; [discriminate Himage | reflexivity]).
  rewrite Htruthy. cbn [negb py_in py_getitem py_get].
  rewrite (dict_get_existsb _ _ _ Himage), Himage, Hdecode, Hdetect.
  unfold insert_mood. rewrite Hbind. reflexivity.
Qed.

Lemma detect_mood_text_suggestion (E : externals) (body : option json) (db : database)
      (now_mood now_suggestion : Z) (emotion : string) (confidence : Q) (session : cell)
      (m t a s : string) :
  detected E body emotion confidence session ->
  get_therapeutic_suggestion E emotion true = text_suggestion m t a s ->
  detect_mood E body db (Runs now_mood) (Runs now_suggestion) =
  (DetectionOk emotion (py_round2 confidence) (JStr m) (JStr t) (JStr a) (JStr s),
   mkDatabase
     (mood_history (with_mood_row db emotion confidence now_mood session))
     (chat_history db)
     (suggestions db ++
        [mkSuggestionRow (next_id (map suggestion_id (suggestions db)))
                         emotion m t (Some a) (Some s) now_suggestion])%list).
Proof.
  intros Hdet Hsug. rewrite (detect_mood_detected _ _ _ _ _ _ _ _ Hdet).
  cbv zeta. rewrite Hsug. reflexivity.
Qed.

Lemma fallback_entry_texts (emotion : string) :
  exists m t a s,
    dict_get_default fallback_suggestions emotion fallback_neutral = text_suggestion m t a s.
Proof.
  unfold dict_get_default, fallback_suggestions, dict_get.
  repeat match goal with
         | |- context [String.eqb ?k emotion] => destruct (String.eqb k emotion)
         end;
    do 4 eexists; reflexivity.
Qed.

Lemma suggestion_unavailable (E : externals) (emotion : string) :
  llm_unavailable E (suggestion_prompt emotion) ->
  get_therapeutic_suggestion E emotion true
  = dict_get_default fallback_suggestions emotion fallback_neutral.
Proof.
  unfold llm_unavailable, get_therapeutic_suggestion.
  destruct (model E) as [g|]; [|reflexivity].
  destruct (g (suggestion_prompt emotion)); [reflexivity | reflexivity | contradiction].
Qed.

Lemma suggestion_unparseable (E : externals) (emotion : string) :
  llm_unparseable E (suggestion_prompt emotion) ->
  get_therapeutic_suggestion E emotion true = unparsed_suggestion.
Proof.
  unfold llm_unparseable, get_therapeutic_suggestion.
  destruct (model E) as [g|]; [|contradiction].
  destruct (g (suggestion_prompt emotion)); try contradiction.
  intros ->. reflexivity.
Qed.

Lemma unavailable_not_unparseable (E : externals) (prompt : string) :
  llm_unavailable E prompt -> llm_unparseable E prompt -> False.
Proof.
  unfold llm_unavailable, llm_unparseable.
  destruct (model E) as [g|]; [|tauto]. destruct (g prompt); tauto.
Qed.

(** C5, as the code has it.  In a detection call that passes validation: when
    the text generator is not configured or its call fails, the suggestion is
    the entry of the fallback table under the detected emotion (the [neutral]
    entry for a label outside the table); when the generated text is not
    JSON, the suggestion is the one fixed [unparsed_suggestion], whatever the
    emotion.  In both cases, when the store runs the two inserts, the four
    texts are returned and written as the new row of [suggestions]. *)
Theorem suggestion_without_json (E : externals) (body : option json) (db : database)
        (now_mood now_suggestion : Z) (emotion : string) (confidence : Q) (session : cell) :
  detected E body emotion confidence session ->
  llm_unavailable E (suggestion_prompt emotion) \/
  llm_unparseable E (suggestion_prompt emotion) ->
  exists m t a s,
    (llm_unavailable E (suggestion_prompt emotion) ->
     text_suggestion m t a s
     = dict_get_default fallback_suggestions emotion fallback_neutral) /\
    (llm_unparseable E (suggestion_prompt emotion) ->
     text_suggestion m t a s = unparsed_suggestion) /\
    get_therapeutic_suggestion E emotion true = text_suggestion m t a s /\
    fst (detect_mood E body db (Runs now_mood) (Runs now_suggestion))
    = DetectionOk emotion (py_round2 confidence) (JStr m) (JStr t) (JStr a) (JStr s) /\
    suggestions (snd (detect_mood E body db (Runs now_mood) (Runs now_suggestion)))
    = (suggestions db ++
         [mkSuggestionRow (next_id (map suggestion_id (suggestions db)))
                          emotion m t (Some a) (Some s) now_suggestion])%list.
Proof.
  intros Hdet [Hun|Hbad].
  - destruct (fallback_entry_texts emotion) as (m & t & a & s & Hentry).
    exists m, t, a, s.
    assert (Hsug : get_therapeutic_suggestion E emotion true = text_suggestion m t a s)
      by (rewrite suggestion_unavailable; assumption).
    rewrite (detect_mood_text_suggestion _ _ _ _ _ _ _ _ _ _ _ _ Hdet Hsug).
    repeat split; auto.
    intros Hbad. destruct (unavailable_not_unparseable _ _ Hun Hbad).
  - pose proof (suggestion_unparseable _ _ Hbad) as Hsug.
    change unparsed_suggestion with
      (text_suggestion
         "You're doing great by acknowledging your feelings. Every emotion is valid and temporary."
         "Take slow, deep breaths and remind yourself that this feeling will pass."
         "Try a short mindfulness exercise or gentle movement."
         "calming nature sounds") in Hsug |- *.
    do 4 eexists.
    rewrite (detect_mood_text_suggestion _ _ _ _ _ _ _ _ _ _ _ _ Hdet Hsug).
    repeat split; auto.
    intros Hun. destruct (unavailable_not_unparseable _ _ Hun Hbad).
Qed.

Lemma sample_detected (llm : option (string -> llm_outcome)) (loads : string -> option json) :
  detected (sample_externals (Some [sample_face; other_face]) llm loads)
           sample_detect_body "happy" 0.875%Q (Some "s1").
Proof.
  exists [("image", JStr "data:image/png;base64,iVBORw0KGgo="); ("session_id", JStr "s1")],
         (JStr "data:image/png;base64,iVBORw0KGgo="), tt.
  repeat split; reflexivity.
Defined.

Lemma suggestion_without_json_witness :
  let E := sample_externals (Some [sample_face; other_face]) None (fun _ => None) in
  detected E sample_detect_body "happy" 0.875%Q (Some "s1") /\
  (llm_unavailable E (suggestion_prompt "happy") \/
   llm_unparseable E (suggestion_prompt "happy")) /\
  exists m t a s,
    (llm_unavailable E (suggestion_prompt "happy") ->
     text_suggestion m t a s
     = dict_get_default fallback_suggestions "happy" fallback_neutral) /\
    (llm_unparseable E (suggestion_prompt "happy") ->
     text_suggestion m t a s = unparsed_suggestion) /\
    get_therapeutic_suggestion E "happy" true = text_suggestion m t a s /\
    fst (detect_mood E sample_detect_body empty_database (Runs 100) (Runs 101))
    = DetectionOk "happy" (py_round2 0.875) (JStr m) (JStr t) (JStr a) (JStr s) /\
    suggestions (snd (detect_mood E sample_detect_body empty_database (Runs 100) (Runs 101)))
    = (suggestions empty_database ++
         [mkSuggestionRow (next_id (map suggestion_id (suggestions empty_database)))
                          "happy" m t (Some a) (Some s) 101])%list.
Proof.
  cbv zeta. split; [apply sample_detected|]. split; [left; exact I|].
  apply (suggestion_without_json
           (sample_externals (Some [sample_face; other_face]) None (fun _ => None))
           sample_detect_body empty_database 100 101 "happy" 0.875%Q (Some "s1")).
  - apply sample_detected.
  - left. exact I.
Defined.

(** C5 fails as stated: with a configured generator whose text is not JSON,
    a detection of [happy] returns and stores the fixed
    [unparsed_suggestion], which is not the table's entry for [happy]. *)
Lemma unparseable_text_not_from_table :
  let E := sample_externals (Some [sample_face; other_face])
                            (Some (fun _ => Text "Take a deep breath."))
                            (fun _ => None) in
  detected E sample_detect_body "happy" 0.875%Q (Some "s1") /\
  llm_unparseable E (suggestion_prompt "happy") /\
  get_therapeutic_suggestion E "happy" true = unparsed_suggestion /\
  unparsed_suggestion <> dict_get_default fallback_suggestions "happy" fallback_neutral /\
  fst (detect_mood E sample_detect_body empty_database (Runs 100) (Runs 101))
  = DetectionOk "happy" (py_round2 0.875)
      (JStr "You're doing great by acknowledging your feelings. Every emotion is valid and temporary.")
      (JStr "Take slow, deep breaths and remind yourself that this feeling will pass.")
      (JStr "Try a short mindfulness exercise or gentle movement.")
      (JStr "calming nature sounds") /\
  map suggestion_message
      (suggestions (snd (detect_mood E sample_detect_body empty_database (Runs 100) (Runs 101))))
  = ["You're doing great by acknowledging your feelings. Every emotion is valid and temporary."].
Proof.
  cbv zeta. split; [apply sample_detected|].
  split; [reflexivity|]. split; [reflexivity|].
  split; [|split; vm_compute; reflexivity].
  vm_compute. discriminate.
Qed.

Lemma detect_emotion_none_iff (E : externals) (img : image E) :
  fst (detect_emotion E img) = None <-> no_emotion E img.
Proof.
  unfold no_emotion, detect_emotion. split.
  - destruct (detect_emotions E img) as [[|first others]|]; auto.
    intros Hnone. right. right. exists first, others. split; [reflexivity|].
    destruct (emotions first) as [|entry rest] eqn:Hem; [reflexivity|].
    exfalso.
    destruct (py_max_spec (entry :: rest)) as (top & topv & Hmax & Hget & _);
      [discriminate|].
    cbv zeta in Hnone. rewrite Hmax, Hget in Hnone. discriminate.
  - intros [->|[->|(first & others & -> & Hempty)]]; try reflexivity.
    cbv zeta. rewrite Hempty. reflexivity.
Qed.

Lemma existsb_false_dict_get {V : Type} (d : list (string * V)) (k : string) :
  existsb (String.eqb k) (dict_keys d) = false -> dict_get d k = None.
Proof.
  intros H. destruct (dict_get d k) eqn:Hget; [|reflexivity].
  apply dict_get_existsb in Hget. congruence.
Qed.

Ltac client_error_absurd :=
  match goal with
  | H : client_error _ |- _ => destruct H as [? H]; discriminate H
  end.

(** The answer of [/detect] to an object body, by the stage that refuses. *)
Lemma detect_mood_object (E : externals) (d : list (string * json)) (db : database)
      (mood_exec suggestion_exec : execution) :
  let r := detect_mood E (Some (JObj d)) db mood_exec suggestion_exec in
  match dict_get d "image" with
  | None => r = (Failure 400 "No image provided", db)
  | Some v =>
      match decode_base64_image E v with
      | None => r = (Failure 400 "Invalid image format", db)
      | Some img =>
          match fst (detect_emotion E img) with
          | None => r = (Failure 400 "No face detected", db)
          | Some _ => ~ client_error (fst r)
          end
      end
  end.
Proof.
  cbv zeta. unfold detect_mood.
  destruct (dict_get d "image") as [v|] eqn:Himage.
  - assert (Htruthy : truthy (JObj d) = true)
      by (destruct d; [discriminate Himage | reflexivity]).
    rewrite Htruthy. cbn [negb py_in py_getitem py_get].
    rewrite (dict_get_existsb _ _ _ Himage), Himage.
    destruct (decode_base64_image E v) as [img|]; [|reflexivity].
    destruct (detect_emotion E img) as [[emotion|] confidence]; [|reflexivity].
    cbn [fst].
    destruct (insert_mood _ _ _ _ _ _); [|intro; client_error_absurd].
    destruct (py_getitem _ "message"); [|intro; client_error_absurd].
    destruct (py_getitem _ "tip"); [|intro; client_error_absurd].
    destruct (py_get _ "activity" _); [|intro; client_error_absurd].
    destruct (py_get _ "sound" _); [|intro; client_error_absurd].
    destruct (insert_suggestion _ _ _ _ _ _ _ _); intro; client_error_absurd.
  - destruct d as [|entry d']; [reflexivity|].
    cbn [truthy negb py_in].
    destruct (existsb (String.eqb "image") (dict_keys (entry :: d'))) eqn:Hin;
      [|reflexivity].
    apply existsb_dict_get in Hin. destruct Hin as [v Hv]. congruence.
Qed.

(** C2, as the code has it.  For a request whose JSON body is absent or is
    an object, [/detect] answers 400 with an error field exactly when the
    body is absent or has no [image] key, or the image value does not decode,
    or the classifier gives no emotion for the decoded image (it reports no
    face, it raises, or the first face has an empty score mapping).  A 400
    answer is no success and leaves the store untouched. *)
Theorem detect_client_error_iff (E : externals) (body : option json) (db : database)
        (mood_exec suggestion_exec : execution) :
  absent_or_object body ->
  (client_error (fst (detect_mood E body db mood_exec suggestion_exec)) <->
   image_missing body \/ image_undecodable E body \/ no_face_detected E body) /\
  (client_error (fst (detect_mood E body db mood_exec suggestion_exec)) ->
   ~ success (fst (detect_mood E body db mood_exec suggestion_exec)) /\
   snd (detect_mood E body db mood_exec suggestion_exec) = db).
Proof.
  intros [->|[d ->]].
  - split.
    + split.
      * intros _. left. now left.
      * intros _. eexists. reflexivity.
    + intros _. split; [intros H; exact H | reflexivity].
  - pose proof (detect_mood_object E d db mood_exec suggestion_exec) as Hstage.
    cbv zeta in Hstage.
    unfold image_missing, image_undecodable, no_face_detected.
    destruct (dict_get d "image") as [v|] eqn:Himage.
    2:{ rewrite Hstage. split.
        - split; [|intros _; eexists; reflexivity].
          intros _. left. right. exists d. auto.
        - intros _. split; [intros H; exact H | reflexivity]. }
    destruct (decode_base64_image E v) as [img|] eqn:Hdecode.
    2:{ rewrite Hstage. split.
        - split; [|intros _; eexists; reflexivity].
          intros _. right. left. exists d, v. auto.
        - intros _. split; [intros H; exact H | reflexivity]. }
    destruct (fst (detect_emotion E img)) as [emotion|] eqn:Hemotion.
    + split; [|intros H; contradiction].
      split; [intros H; contradiction|].
      intros [[Habs|(d' & Hd & Hnone)]|[(d' & v' & Hd & Hv & Hbad)|
                                        (d' & v' & img' & Hd & Hv & Hdec & Hno)]];
        try discriminate; injection Hd as <-.
      * congruence.
      * rewrite Himage in Hv. injection Hv as <-. congruence.
      * rewrite Himage in Hv. injection Hv as <-.
        rewrite Hdecode in Hdec. injection Hdec as <-.
        apply detect_emotion_none_iff in Hno. congruence.
    + rewrite Hstage. split.
      * split; [|intros _; eexists; reflexivity].
        intros _. right. right. exists d, v, img.
        repeat split; auto. now apply detect_emotion_none_iff.
      * intros _. split; [intros H; exact H | reflexivity].
Qed.

Lemma detect_client_error_iff_witness :
  let E := sample_externals (Some [sample_face]) None (fun _ => None) in
  let body := Some (JObj [("session_id", JStr "s1")]) in
  absent_or_object body /\
  (client_error (fst (detect_mood E body empty_database (Runs 100) (Runs 101))) <->
   image_missing body \/ image_undecodable E body \/ no_face_detected E body) /\
  (client_error (fst (detect_mood E body empty_database (Runs 100) (Runs 101))) ->
   ~ success (fst (detect_mood E body empty_database (Runs 100) (Runs 101))) /\
   snd (detect_mood E body empty_database (Runs 100) (Runs 101)) = empty_database).
Proof.
  cbv zeta.
  assert (Hbody : absent_or_object (Some (JObj [("session_id", JStr "s1")])))
    by (right; eexists; reflexivity).
  split; [exact Hbody|].
  exact (detect_client_error_iff
           (sample_externals (Some [sample_face]) None (fun _ => None))
           (Some (JObj [("session_id", JStr "s1")])) empty_database (Runs 100) (Runs 101) Hbody).
Defined.

(** C2 fails as stated on two kinds of request.  A JSON body that is a number
    has no [image] key, yet the membership test raises and the answer is 500;
    and a classifier that raises on a decoded image (it reports nothing about
    faces) gives the 400 answer [No face detected]. *)
Lemma detect_other_errors :
  let E := sample_externals None None (fun _ => None) in
  (py_getitem (JNum 5) "image" = None /\
   fst (detect_mood E (Some (JNum 5)) empty_database (Runs 100) (Runs 101))
   = Failure 500 "Internal server error") /\
  (decode_base64_image E (JStr "data:image/png;base64,iVBORw0KGgo=") = Some tt /\
   detect_emotions E tt = None /\
   fst (detect_mood E sample_detect_body empty_database (Runs 100) (Runs 101))
   = Failure 400 "No face detected").
Proof.
  cbv zeta. repeat split; reflexivity.
Qed.

(** ** The history queries *)

Section Ordering.

Variable A : Type.
Variable leb : A -> A -> bool.
Hypothesis leb_total : forall a b, leb a b = true \/ leb b a = true.
Hypothesis leb_trans : forall a b c, leb a b = true -> leb b c = true -> leb a c = true.

Lemma insert_sorted_perm (x : A) (l : list A) :
  Permutation (insert_sorted leb x l) (x :: l).
Proof.
  induction l as [|y l IH]; simpl; [reflexivity|].
  destruct (leb x y); [reflexivity|].
  rewrite IH. apply perm_swap.
Qed.

Lemma order_by_perm (l : list A) : Permutation (order_by leb l) l.
Proof.
  induction l as [|x l IH]; simpl; [reflexivity|].
  rewrite insert_sorted_perm. now constructor.
Qed.

Lemma insert_sorted_sorted (x : A) (l : list A) :
  StronglySorted (fun a b => leb a b = true) l ->
  StronglySorted (fun a b => leb a b = true) (insert_sorted leb x l).
Proof.
  induction 1 as [|y l Hsorted IH Hall]; simpl.
  - repeat constructor.
  - destruct (leb x y) eqn:Hxy.
    + constructor; [now constructor|].
      constructor; [assumption|].
      eapply Forall_impl; [|exact Hall]. intros z Hyz. eauto.
    + constructor; [assumption|].
      apply (Permutation_Forall (Permutation_sym (insert_sorted_perm x l))).
      constructor; [|assumption].
      destruct (leb_total x y) as [H|H]; congruence.
Qed.

Lemma order_by_sorted (l : list A) :
  StronglySorted (fun a b => leb a b = true) (order_by leb l).
Proof.
  induction l as [|x l IH]; simpl; [constructor|].
  now apply insert_sorted_sorted.
Qed.

End Ordering.

Lemma in_firstn {A : Type} (n : nat) (l : list A) (x : A) :
  In x (firstn n l) -> In x l.
Proof.
  intros H. rewrite <- (firstn_skipn n l). apply in_or_app. now left.
Qed.

Lemma StronglySorted_firstn {A : Type} (R : A -> A -> Prop) (n : nat) (l : list A) :
  StronglySorted R l -> StronglySorted R (firstn n l).
Proof.
  intros H. revert n. induction H as [|x l Hsorted IH Hall]; intros [|n]; simpl;
    try constructor; auto.
  apply Forall_forall. intros y Hy. rewrite Forall_forall in Hall.
  apply Hall. eapply in_firstn; eassumption.
Qed.

Lemma StronglySorted_impl {A : Type} (R S : A -> A -> Prop) (l : list A) :
  (forall a b, R a b -> S a b) -> StronglySorted R l -> StronglySorted S l.
Proof.
  intros Himp. induction 1; constructor; auto.
  eapply Forall_impl; [|eassumption]. auto.
Qed.

Lemma sql_limit_sorted {A : Type} (R : A -> A -> Prop) (limit : Z) (l : list A) :
  StronglySorted R l -> StronglySorted R (sql_limit limit l).
Proof.
  unfold sql_limit. destruct (limit <? 0); auto using StronglySorted_firstn.
Qed.

Lemma sql_limit_incl {A : Type} (limit : Z) (l : list A) : incl (sql_limit limit l) l.
Proof.
  unfold sql_limit. destruct (limit <? 0); [apply incl_refl|].
  intros x Hx. eapply in_firstn; eassumption.
Qed.

Lemma sql_limit_length {A : Type} (limit : Z) (l : list A) :
  List.length (sql_limit limit l)
  = if limit <? 0 then List.length l else Nat.min (Z.to_nat limit) (List.length l).
Proof.
  unfold sql_limit. destruct (limit <? 0); [reflexivity|]. apply length_firstn.
Qed.

Lemma cell_is_true (param : string) (c : cell) :
  cell_is param c = true <-> c = Some param.
Proof.
  destruct c as [s|]; simpl.
  - rewrite String.eqb_eq. split; congruence.
  - split; discriminate.
Qed.


Lemma select_mood_history_spec (db : database) (session : string) (limit : Z)
      (rows : list mood_row) :
  select_mood_history db session limit = Some rows ->
  Forall (fun r => mood_session_id r = Some session) rows /\
  incl rows (mood_history db) /\
  newest_first rows /\
  List.length rows =
    (let n := List.length (filter (fun r => cell_is session (mood_session_id r))
                                  (mood_history db)) in
     if limit <? 0 then n else Nat.min (Z.to_nat limit) n).
Proof.
  unfold select_mood_history. destruct (fits_int64 limit); [|discriminate].
  intros H. injection H as <-.
  set (leb := fun a b : mood_row => mood_timestamp b <=? mood_timestamp a).
  set (matching := filter (fun r => cell_is session (mood_session_id r)) (mood_history db)).
  assert (Hperm : Permutation (order_by leb matching) matching).
  { apply order_by_perm. }
  assert (Hin : incl (sql_limit limit (order_by leb matching)) matching).
  { intros r Hr. apply sql_limit_incl in Hr.
    eapply Permutation_in; eassumption. }
  repeat split.
  - apply Forall_forall. intros r Hr. apply Hin in Hr.
    apply filter_In in Hr. now apply cell_is_true.
  - intros r Hr. apply Hin in Hr. apply filter_In in Hr. tauto.
  - unfold newest_first. apply sql_limit_sorted.
    apply (StronglySorted_impl (fun a b => leb a b = true)).
    + unfold leb. intros a b Hab. now apply Z.leb_le.
    + apply order_by_sorted; unfold leb; intros.
      * destruct (Z.leb_spec (mood_timestamp b) (mood_timestamp a)); [now left|].
        right. apply Z.leb_le. lia.
      * rewrite Z.leb_le in *. lia.
  - rewrite sql_limit_length. cbv zeta.
    now rewrite (Permutation_length Hperm).
Qed.

Lemma select_chat_history_spec (db : database) (session : string) (limit : Z)
      (rows : list chat_row) :
  select_chat_history db session limit = Some rows ->
  Forall (fun r => chat_session_id r = Some session) rows /\
  incl rows (chat_history db) /\
  oldest_first rows /\
  List.length rows =
    (let n := List.length (filter (fun r => cell_is session (chat_session_id r))
                                  (chat_history db)) in
     if limit <? 0 then n else Nat.min (Z.to_nat limit) n).
Proof.
  unfold select_chat_history. destruct (fits_int64 limit); [|discriminate].
  intros H. injection H as <-.
  set (leb := fun a b : chat_row => chat_timestamp a <=? chat_timestamp b).
  set (matching := filter (fun r => cell_is session (chat_session_id r)) (chat_history db)).
  assert (Hperm : Permutation (order_by leb matching) matching).
  { apply order_by_perm. }
  assert (Hin : incl (sql_limit limit (order_by leb matching)) matching).
  { intros r Hr. apply sql_limit_incl in Hr.
    eapply Permutation_in; eassumption. }
  repeat split.
  - apply Forall_forall. intros r Hr. apply Hin in Hr.
    apply filter_In in Hr. now apply cell_is_true.
  - intros r Hr. apply Hin in Hr. apply filter_In in Hr. tauto.
  - unfold oldest_first. apply sql_limit_sorted.
    apply (StronglySorted_impl (fun a b => leb a b = true)).
    + unfold leb. intros a b Hab. now apply Z.leb_le.
    + apply order_by_sorted; unfold leb; intros.
      * destruct (Z.leb_spec (chat_timestamp a) (chat_timestamp b)); [now left|].
        right. apply Z.leb_le. lia.
      * rewrite Z.leb_le in *. lia.
  - rewrite sql_limit_length. cbv zeta.
    now rewrite (Permutation_length Hperm).
Qed.

Lemma select_mood_history_runs (db : database) (session : string) (limit : Z) :
  fits_int64 limit = true -> exists rows, select_mood_history db session limit = Some rows.
Proof. unfold select_mood_history. intros ->. eauto. Qed.

Lemma select_chat_history_runs (db : database) (session : string) (limit : Z) :
  fits_int64 limit = true -> exists rows, select_chat_history db session limit = Some rows.
Proof. unfold select_chat_history. intros ->. eauto. Qed.



Example mood_history_limit_two :
  fst (get_mood_history (sample_externals None None (fun _ => None))
                        (mkArgs (Some "s1") (Some "2")) sample_store)
  = MoodHistoryOk [mkMoodEntry "happy" 0.75 40; mkMoodEntry "neutral" 0.5 30]%Q.
Proof. reflexivity. Qed.


(** ** The chat handler *)

Lemma bind_reply (E : externals) (reply : string) :
  bind_text_not_null E (JStr reply) = Some reply.
Proof. reflexivity. Qed.

(** A body whose fields can be stored runs to the end: both turns are
    written and the reply is returned. *)
Lemma chat_runs (E : externals) (d : list (string * json)) (db : database)
      (now_user now_therapist : Z) (now : datetime E)
      (message : json) (text : string) (mood session : cell) :
  chat_fields_stored E d message text mood session ->
  chat E (Some (JObj d)) db (Runs now_user) now_therapist now
  = (ChatOk (chat_reply_for E d message) (isoformat E now),
     with_chat_rows db text (chat_reply_for E d message) mood session
                    now_user now_therapist).
Proof.
  intros (Hmsg & Htext & Hmood & Hsession). unfold chat.
  assert (Htruthy : truthy (JObj d) = true)
    by (destruct d; [discriminate Hmsg | reflexivity]).
  rewrite Htruthy. cbn [negb py_in py_getitem py_get].
  rewrite (dict_get_existsb _ _ _ Hmsg), Hmsg.
  unfold insert_chat. rewrite Htext, Hmood, Hsession.
  reflexivity.
Qed.

(** A successful chat call had an object body whose fields were stored. *)
Lemma chat_success_inv (E : externals) (body : option json) (db db' : database)
      (user_exec : execution) (now_therapist : Z) (now : datetime E)
      (reply timestamp : string) :
  chat E body db user_exec now_therapist now = (ChatOk reply timestamp, db') ->
  exists d message text mood session now_user,
    body = Some (JObj d) /\ user_exec = Runs now_user /\
    chat_fields_stored E d message text mood session.
Proof.
  unfold chat. destruct body as [data|]; [|discriminate].
  destruct (negb (truthy data)); [discriminate|].
  destruct (py_in "message" data) as [[|]|]; try discriminate.
  destruct data as [| | | |items|d]; cbn [py_getitem py_get]; try discriminate.
  destruct (dict_get d "message") as [message|] eqn:Hmsg; [|discriminate].
  unfold insert_chat at 1.
  destruct (bind_text_not_null E message) as [text|] eqn:Htext; [|discriminate].
  destruct (bind_text E (dict_get_default d "mood" JNull)) as [mood|] eqn:Hmood;
    [|discriminate].
  destruct (bind_text E (dict_get_default d "session_id" (JStr "default")))
    as [session|] eqn:Hsession; [|discriminate].
  destruct user_exec as [|now_user]; [discriminate|].
  intros _. exists d, message, text, mood, session, now_user. repeat split; assumption.
Qed.

Lemma get_chat_response_cases (E : externals) (message mood history : json) :
  let reply := get_chat_response E message mood history in
  match model E with
  | None => reply = no_model_reply
  | Some generate_content =>
      reply = failure_reply \/
      exists prompt text, generate_content prompt = Text text /\ reply = strip text
  end.
Proof.
  cbv zeta. unfold get_chat_response.
  destruct (model E) as [g|]; [|reflexivity].
  destruct (build_context E history) as [context|]; [|now left].
  match goal with |- context [g ?p] => destruct (g p) eqn:Hcall end; auto.
  right. eauto.
Qed.

Lemma get_chat_response_failing (E : externals) (message mood history : json)
      (generate_content : string -> llm_outcome) :
  model E = Some generate_content ->
  llm_always_fails generate_content ->
  get_chat_response E message mood history = failure_reply.
Proof.
  intros Hmodel Hfails.
  pose proof (get_chat_response_cases E message mood history) as Hcases.
  cbv zeta in Hcases. rewrite Hmodel in Hcases.
  destruct Hcases as [H|(prompt & text & Hcall & _)]; [assumption|].
  destruct (Hfails _ _ Hcall).
Qed.

(** The reply, by the prompt that is sent. *)
Lemma get_chat_response_by_prompt (E : externals) (message mood history : json)
      (generate_content : string -> llm_outcome) :
  model E = Some generate_content ->
  match chat_prompt_for E message mood history with
  | None => get_chat_response E message mood history = failure_reply
  | Some prompt =>
      match generate_content prompt with
      | Text generated => get_chat_response E message mood history = strip generated
      | _ => get_chat_response E message mood history = failure_reply
      end
  end.
Proof.
  intros Hmodel. unfold get_chat_response, chat_prompt_for. rewrite Hmodel.
  destruct (build_context E history) as [context|]; [|reflexivity].
  match goal with |- context [generate_content ?p] => destruct (generate_content p) end;
    reflexivity.
Qed.

(** C6, as the code has it.  For a [/chat] request whose body is an object
    with a [message] key, whose message, mood and session identifier can be
    stored and whose first insert the store accepts, the handler returns a
    response string with the [isoformat] timestamp of the current time.  The
    response is one fixed sentence when the text generator is not configured;
    it is another fixed sentence when the prior turns cannot be read or the
    call made with the prompt fails; in every other case it is the text
    generated for that prompt, stripped.  So the response is empty only when
    the generator answered the prompt with a blank text. *)
Theorem chat_response (E : externals) (d : list (string * json)) (db : database)
        (now_user now_therapist : Z) (now : datetime E)
        (message : json) (text : string) (mood session : cell) :
  chat_fields_stored E d message text mood session ->
  let prompt_sent :=
    chat_prompt_for E message (dict_get_default d "mood" JNull)
                    (dict_get_default d "chat_history" (JArr [])) in
  exists reply,
    fst (chat E (Some (JObj d)) db (Runs now_user) now_therapist now)
    = ChatOk reply (isoformat E now) /\
    (model E = None -> reply = no_model_reply) /\
    (forall generate_content,
        model E = Some generate_content ->
        match prompt_sent with
        | None => reply = failure_reply
        | Some prompt =>
            match generate_content prompt with
            | Text generated => reply = strip generated
            | _ => reply = failure_reply
            end
        end) /\
    (reply = "" ->
     exists generate_content prompt generated,
       model E = Some generate_content /\
       prompt_sent = Some prompt /\
       generate_content prompt = Text generated /\ strip generated = "").
Proof.
  intros Hfields. cbv zeta. exists (chat_reply_for E d message).
  rewrite (chat_runs _ _ _ _ _ _ _ _ _ _ Hfields). cbn [fst].
  split; [reflexivity|]. split; [|split].
  - intros Hmodel. unfold chat_reply_for, get_chat_response. now rewrite Hmodel.
  - intros g Hmodel. unfold chat_reply_for.
    apply get_chat_response_by_prompt. exact Hmodel.
  - intros Hempty. unfold chat_reply_for in Hempty.
    destruct (model E) as [g|] eqn:Hmodel.
    + pose proof (get_chat_response_by_prompt E message
                    (dict_get_default d "mood" JNull)
                    (dict_get_default d "chat_history" (JArr [])) g Hmodel) as Hby.
      destruct (chat_prompt_for E message _ _) as [prompt|].
      * destruct (g prompt) as [| |generated] eqn:Hcall.
        -- rewrite Hempty in Hby. discriminate.
        -- rewrite Hempty in Hby. discriminate.
        -- exists g, prompt, generated. repeat split; congruence.
      * rewrite Hempty in Hby. discriminate.
    + unfold get_chat_response in Hempty. rewrite Hmodel in Hempty. discriminate.
Qed.

Lemma sample_chat_fields (llm : option (string -> llm_outcome)) :
  chat_fields_stored (sample_externals None llm (fun _ => None))
    [("message", JStr "hello"); ("mood", JStr "sad"); ("session_id", JStr "s1")]
    (JStr "hello") "hello" (Some "sad") (Some "s1").
Proof. repeat split; reflexivity. Defined.

Lemma chat_response_witness :
  let E := sample_externals None (Some (fun _ => CallRaises)) (fun _ => None) in
  let d := [("message", JStr "hello"); ("mood", JStr "sad"); ("session_id", JStr "s1")] in
  chat_fields_stored E d (JStr "hello") "hello" (Some "sad") (Some "s1") /\
  exists reply,
    fst (chat E (Some (JObj d)) empty_database (Runs 100) 101 tt)
    = ChatOk reply (isoformat E tt) /\
    reply = failure_reply.
Proof.
  cbv zeta. split; [apply sample_chat_fields|].
  destruct (chat_response
              (sample_externals None (Some (fun _ => CallRaises)) (fun _ => None))
              [("message", JStr "hello"); ("mood", JStr "sad"); ("session_id", JStr "s1")]
              empty_database 100 101 tt (JStr "hello") "hello" (Some "sad") (Some "s1")
              (sample_chat_fields _))
    as (reply & Hrun & _ & Hcall & _).
  exists reply. split; [exact Hrun | exact (Hcall _ eq_refl)].
Defined.

(** C6 fails as stated: a configured generator that answers with blanks
    makes [/chat] return the empty string as its response. *)
Lemma blank_reply_is_empty :
  let E := sample_externals None (Some (fun _ => Text ("  " ++ nl))) (fun _ => None) in
  py_in "message" (JObj [("message", JStr "hello")]) = Some true /\
  fst (chat E (Some (JObj [("message", JStr "hello")])) empty_database (Runs 100) 101 tt)
  = ChatOk "" "2024-05-01T12:00:00".
Proof. cbv zeta. split; reflexivity. Qed.

Lemma max_id_nonneg (ids : list Z) : 0 <= fold_right Z.max 0 ids.
Proof. induction ids; simpl; lia. Qed.

Lemma next_id_after_insert (ids : list Z) :
  next_id (ids ++ [next_id ids]) = next_id ids + 1.
Proof.
  unfold next_id.
  assert (Happ : forall x, fold_right Z.max 0 (ids ++ [x])
                           = Z.max (fold_right Z.max 0 ids) (Z.max x 0)).
  { intros x. induction ids as [|a ids IH]; simpl; [lia|]. rewrite IH. lia. }
  rewrite Happ. pose proof (max_id_nonneg ids). lia.
Qed.

(** C9. After a successful chat call the table [chat_history] ends with two
    new rows, the [user] row and then the [therapist] row (with the next
    identifier); the message of the [therapist] row is the response returned
    to the caller, and both rows hold the same session identifier and the
    same mood, those stored for the values the caller sent. *)
Theorem chat_rows_written (E : externals) (body : option json) (db db' : database)
        (user_exec : execution) (now_therapist : Z) (now : datetime E)
        (reply timestamp : string) :
  chat E body db user_exec now_therapist now = (ChatOk reply timestamp, db') ->
  exists user_row therapist_row d,
    chat_history db' = (chat_history db ++ [user_row; therapist_row])%list /\
    chat_sender user_row = "user" /\
    chat_sender therapist_row = "therapist" /\
    chat_message therapist_row = reply /\
    chat_id therapist_row = chat_id user_row + 1 /\
    chat_session_id therapist_row = chat_session_id user_row /\
    chat_mood therapist_row = chat_mood user_row /\
    body = Some (JObj d) /\
    bind_text E (dict_get_default d "session_id" (JStr "default"))
    = Some (chat_session_id user_row) /\
    bind_text E (dict_get_default d "mood" JNull) = Some (chat_mood user_row).
Proof.
  intros Hrun.
  destruct (chat_success_inv _ _ _ _ _ _ _ _ _ Hrun)
    as (d & message & text & mood & session & now_user & -> & -> & Hfields).
  rewrite (chat_runs _ _ _ _ _ _ _ _ _ _ Hfields) in Hrun.
  injection Hrun as <- _ <-.
  destruct Hfields as (_ & _ & Hmood & Hsession).
  unfold with_chat_rows. cbv zeta. cbn [chat_history].
  eexists _, _, d. rewrite <- app_assoc. cbn [app].
  repeat split; try reflexivity; try assumption.
  cbn [chat_id]. rewrite map_app. cbn [map chat_id].
  apply next_id_after_insert.
Qed.

Lemma chat_rows_written_witness :
  let E := sample_externals None None (fun _ => None) in
  exists db',
    chat E sample_chat_body empty_database (Runs 100) 101 tt
    = (ChatOk no_model_reply "2024-05-01T12:00:00", db') /\
    exists user_row therapist_row,
      chat_history db' = [user_row; therapist_row] /\
      chat_message therapist_row = no_model_reply /\
      chat_session_id therapist_row = chat_session_id user_row /\
      chat_mood therapist_row = chat_mood user_row.
Proof.
  cbv zeta. eexists. split; [reflexivity|].
  destruct (chat_rows_written
              (sample_externals None None (fun _ => None)) sample_chat_body
              empty_database _ (Runs 100) 101 tt no_model_reply "2024-05-01T12:00:00" eq_refl)
    as (user_row & therapist_row & d & Hrows & _ & _ & Hmsg & _ & Hsession & Hmood & _).
  exists user_row, therapist_row. repeat split; assumption.
Defined.

(** ** Rows are only appended *)

Lemma extends_refl (db : database) : extends db db.
Proof. repeat split; exists []; now rewrite app_nil_r. Qed.

Lemma extends_trans (a b c : database) : extends a b -> extends b c -> extends a c.
Proof.
  intros ([m1 Hm1] & [c1 Hc1] & [s1 Hs1]) ([m2 Hm2] & [c2 Hc2] & [s2 Hs2]).
  repeat split.
  - exists (m1 ++ m2)%list. now rewrite Hm2, Hm1, app_assoc.
  - exists (c1 ++ c2)%list. now rewrite Hc2, Hc1, app_assoc.
  - exists (s1 ++ s2)%list. now rewrite Hs2, Hs1, app_assoc.
Qed.

Lemma insert_mood_extends (E : externals) (db db1 : database) (emotion : string)
      (confidence : Q) (session_id : json) (exec : execution) :
  insert_mood E db emotion confidence session_id exec = Some db1 -> extends db db1.
Proof.
  unfold insert_mood. destruct (bind_text E session_id); [|discriminate].
  destruct exec as [|now]; [discriminate|].
  intros H. injection H as <-. repeat split; cbn.
  - eauto.
  - exists []. now rewrite app_nil_r.
  - exists []. now rewrite app_nil_r.
Qed.

Lemma insert_suggestion_extends (E : externals) (db db1 : database) (emotion : string)
      (message tip activity sound : json) (exec : execution) :
  insert_suggestion E db emotion message tip activity sound exec = Some db1 ->
  extends db db1.
Proof.
  unfold insert_suggestion.
  destruct (bind_text_not_null E message); [|discriminate].
  destruct (bind_text_not_null E tip); [|discriminate].
  destruct (bind_text E activity); [|discriminate].
  destruct (bind_text E sound); [|discriminate].
  destruct exec as [|now]; [discriminate|].
  intros H. injection H as <-. repeat split; cbn.
  - exists []. now rewrite app_nil_r.
  - exists []. now rewrite app_nil_r.
  - eauto.
Qed.

Lemma insert_chat_extends (E : externals) (db db1 : database) (message : json)
      (sender : string) (mood session_id : json) (exec : execution) :
  insert_chat E db message sender mood session_id exec = Some db1 -> extends db db1.
Proof.
  unfold insert_chat.
  destruct (bind_text_not_null E message); [|discriminate].
  destruct (bind_text E mood); [|discriminate].
  destruct (bind_text E session_id); [|discriminate].
  destruct exec as [|now]; [discriminate|].
  intros H. injection H as <-. repeat split; cbn.
  - exists []. now rewrite app_nil_r.
  - eauto.
  - exists []. now rewrite app_nil_r.
Qed.

Lemma extends_keeps_rows (old new : database) :
  extends old new ->
  (forall n row, nth_error (mood_history old) n = Some row ->
                 nth_error (mood_history new) n = Some row) /\
  (forall n row, nth_error (chat_history old) n = Some row ->
                 nth_error (chat_history new) n = Some row) /\
  (forall n row, nth_error (suggestions old) n = Some row ->
                 nth_error (suggestions new) n = Some row).
Proof.
  intros ([m Hm] & [c Hc] & [s Hs]). rewrite Hm, Hc, Hs.
  repeat split; intros n row Hrow;
    (rewrite nth_error_app1; [assumption|]);
    apply nth_error_Some; congruence.
Qed.

Lemma detect_mood_extends (E : externals) (body : option json) (db : database)
      (mood_exec suggestion_exec : execution) :
  extends db (snd (detect_mood E body db mood_exec suggestion_exec)).
Proof.
  unfold detect_mood.
  repeat match goal with
         | |- context [match ?x with _ => _ end] => destruct x eqn:?
         end;
    cbn [snd];
    eauto using extends_refl, extends_trans, insert_mood_extends,
                insert_suggestion_extends.
Qed.

Lemma chat_extends (E : externals) (body : option json) (db : database)
      (user_exec : execution) (now_therapist : Z) (now : datetime E) :
  extends db (snd (chat E body db user_exec now_therapist now)).
Proof.
  unfold chat.
  repeat match goal with
         | |- context [match ?x with _ => _ end] => destruct x eqn:?
         end;
    cbn [snd];
    eauto using extends_refl, extends_trans, insert_chat_extends.
Qed.

(** C7. Every operation leaves each of the three tables with the rows it had,
    unchanged and in place, possibly followed by new rows: the two POST
    handlers only append, the GET handlers and [init_db] on an existing file
    change nothing.  In particular the row at any position before a request
    is the row at that position after it. *)
Theorem rows_only_appended (E : externals) (db : database) :
  (forall body mood_exec suggestion_exec,
      extends db (snd (detect_mood E body db mood_exec suggestion_exec))) /\
  (forall body user_exec now_therapist now,
      extends db (snd (chat E body db user_exec now_therapist now))) /\
  (forall args, snd (get_mood_history E args db) = db) /\
  (forall args, snd (get_chat_history E args db) = db) /\
  (forall now, snd (health_check E db now) = db) /\
  init_db (Some db) = db /\
  (forall db', extends db db' ->
     (forall n row, nth_error (mood_history db) n = Some row ->
                    nth_error (mood_history db') n = Some row) /\
     (forall n row, nth_error (chat_history db) n = Some row ->
                    nth_error (chat_history db') n = Some row) /\
     (forall n row, nth_error (suggestions db) n = Some row ->
                    nth_error (suggestions db') n = Some row)).
Proof.
  repeat split; try reflexivity;
    try (intros; apply detect_mood_extends);
    try (intros; apply chat_extends);
    try (intros args; unfold get_mood_history;
         destruct (select_mood_history _ _ _); reflexivity);
    try (intros args; unfold get_chat_history;
         destruct (select_chat_history _ _ _); reflexivity);
    intros n row Hrow; eapply extends_keeps_rows; eassumption.
Qed.

Lemma rows_only_appended_witness :
  let E := sample_externals None None (fun _ => None) in
  let db' := snd (chat E sample_chat_body sample_store (Runs 100) 101 tt) in
  extends sample_store db' /\
  nth_error (chat_history db') 1
  = Some (mkChatRow 2 "I'm here." "therapist" None 12 (Some "s1")).
Proof.
  cbv zeta.
  destruct (rows_only_appended (sample_externals None None (fun _ => None)) sample_store)
    as (_ & Hchat & _ & _ & _ & _ & Hkeep).
  specialize (Hchat sample_chat_body (Runs 100) 101 tt).
  split; [exact Hchat|].
  destruct (Hkeep _ Hchat) as (_ & Hrows & _).
  apply Hrows. reflexivity.
Defined.

(** ** Confidence shown and confidence stored *)

Lemma insert_suggestion_mood_history (E : externals) (db db1 : database) (emotion : string)
      (message tip activity sound : json) (exec : execution) :
  insert_suggestion E db emotion message tip activity sound exec = Some db1 ->
  mood_history db1 = mood_history db.
Proof.
  unfold insert_suggestion.
  destruct (bind_text_not_null E message); [|discriminate].
  destruct (bind_text_not_null E tip); [|discriminate].
  destruct (bind_text E activity); [|discriminate].
  destruct (bind_text E sound); [|discriminate].
  destruct exec as [|now]; [discriminate|].
  intros H. injection H as <-. reflexivity.
Qed.

(** A successful detection passed validation, shows the rounded confidence
    and appended the observation. *)
Lemma detect_success_inv (E : externals) (body : option json) (db db' : database)
      (mood_exec suggestion_exec : execution) (emotion : string) (shown : Q)
      (message tip activity sound : json) :
  detect_mood E body db mood_exec suggestion_exec
  = (DetectionOk emotion shown message tip activity sound, db') ->
  exists confidence session now_mood,
    mood_exec = Runs now_mood /\
    detected E body emotion confidence session /\
    shown = py_round2 confidence /\
    mood_history db'
    = mood_history (with_mood_row db emotion confidence now_mood session).
Proof.
  unfold detect_mood. destruct body as [data|]; [|discriminate].
  destruct (negb (truthy data)); [discriminate|].
  destruct (py_in "image" data) as [[|]|]; try discriminate.
  destruct data as [| | | |items|d]; cbn [py_getitem py_get]; try discriminate.
  destruct (dict_get d "image") as [v|] eqn:Himage; [|discriminate].
  destruct (decode_base64_image E v) as [img|] eqn:Hdecode; [|discriminate].
  destruct (detect_emotion E img) as [[label|] confidence] eqn:Hdetect; [|discriminate].
  unfold insert_mood.
  destruct (bind_text E (dict_get_default d "session_id" (JStr "default")))
    as [session|] eqn:Hsession; [|discriminate].
  destruct mood_exec as [|now_mood]; [discriminate|].
  destruct (py_getitem _ "message") as [m|]; [|discriminate].
  destruct (py_getitem _ "tip") as [t|]; [|discriminate].
  destruct (py_get _ "activity" _) as [a|]; [|discriminate].
  destruct (py_get _ "sound" _) as [s|]; [|discriminate].
  destruct (insert_suggestion _ _ _ _ _ _ _ _) as [db2|] eqn:Hinsert; [|discriminate].
  intros H. injection H as <- <- _ _ _ _ <-.
  exists confidence, session, now_mood. split; [reflexivity|].
  split; [|split; [reflexivity|]].
  - exists d, v, img. repeat split; assumption.
  - apply insert_suggestion_mood_history in Hinsert. exact Hinsert.
Qed.

Lemma order_by_length {A : Type} (leb : A -> A -> bool) (l : list A) :
  List.length (order_by leb l) = List.length l.
Proof. apply Permutation_length, order_by_perm. Qed.

(** A query for a session with no effective bound lists every row of the
    session. *)
Lemma mood_history_lists_row (E : externals) (args : query_args) (db : database)
      (history : list mood_entry) (row : mood_row) :
  let limit := args_get_int E (arg_limit args) 50 in
  In row (mood_history db) ->
  mood_session_id row = Some (args_get (arg_session_id args) "default") ->
  limit < 0 \/ Z.of_nat (List.length (mood_history db)) <= limit ->
  fst (get_mood_history E args db) = MoodHistoryOk history ->
  In (mood_entry_of row) history.
Proof.
  cbv zeta. intros Hin Hsession Hlimit. unfold get_mood_history, select_mood_history.
  destruct (fits_int64 _); [|discriminate].
  cbn [fst]. intros H. injection H as <-. apply in_map.
  set (leb := fun a b : mood_row => mood_timestamp b <=? mood_timestamp a).
  set (matching := filter _ (mood_history db)).
  assert (Hsorted : In row (order_by leb matching)).
  { apply (Permutation_in _ (Permutation_sym (order_by_perm _ leb matching))).
    apply filter_In. split; [assumption|]. now apply cell_is_true. }
  unfold sql_limit. destruct (Z.ltb_spec (args_get_int E (arg_limit args) 50) 0);
    [assumption|].
  rewrite firstn_all2; [assumption|].
  rewrite order_by_length.
  pose proof (filter_length_le (fun r => cell_is (args_get (arg_session_id args) "default")
                                                 (mood_session_id r)) (mood_history db))
    as Hle.
  fold matching in Hle. lia.
Qed.

(** A history query whose limit fits SQLite's integers is answered. *)
Lemma mood_history_answers (E : externals) (args : query_args) (db : database) :
  fits_int64 (args_get_int E (arg_limit args) 50) = true ->
  exists history, fst (get_mood_history E args db) = MoodHistoryOk history.
Proof.
  intros Hfits. unfold get_mood_history, select_mood_history. rewrite Hfits.
  eexists. reflexivity.
Qed.

Lemma hundredth (k : Z) : (k # 100 == inject_Z k * (1 # 100))%Q.
Proof. unfold Qeq, Qmult, inject_Z. simpl. lia. Qed.

(** The decimal rounding is within half a hundredth of its argument. *)
Lemma decimal_round2_close (x : Q) : (Qabs (decimal_round2 x - x) <= 1 # 200)%Q.
Proof.
  apply Qabs_Qle_condition. unfold decimal_round2, round_half_even. cbv zeta.
  pose proof (Qfloor_le (x * 100)) as Hlow.
  pose proof (Qlt_floor (x * 100)) as Hhigh.
  rewrite inject_Z_plus in Hhigh. change (inject_Z 1) with 1%Q in Hhigh.
  destruct (x * 100 - inject_Z (Qfloor (x * 100)) ?= 1 # 2)%Q eqn:Hcmp.
  - apply Qeq_alt in Hcmp.
    destruct (Z.even (Qfloor (x * 100))); rewrite hundredth;
      try (rewrite inject_Z_plus; change (inject_Z 1) with 1%Q);
      generalize dependent (inject_Z (Qfloor (x * 100))); intros low ? ? ?; split; lra.
  - apply Qlt_alt in Hcmp. rewrite hundredth.
    generalize dependent (inject_Z (Qfloor (x * 100))); intros low ? ? ?; split; lra.
  - apply Qgt_alt in Hcmp. rewrite hundredth, inject_Z_plus.
    change (inject_Z 1) with 1%Q.
    generalize dependent (inject_Z (Qfloor (x * 100))); intros low ? ? ?; split; lra.
Qed.

(** The double closest to 0.89 is its own rounding: [round] changes nothing
    on a double that already stands for a number of hundredths. *)
Example round_of_rounded_double :
  (nearest_double 0.89 == 8016407336719483 # 9007199254740992)%Q /\
  (py_round2 (nearest_double 0.89) == nearest_double 0.89)%Q.
Proof. split; vm_compute; reflexivity. Qed.

(** A tie on the exact value goes to the even digit: [round(0.125, 2)] is the
    double closest to 0.12, and [round(0.875, 2)] the double closest to
    0.88. *)
Example round_of_ties :
  (py_round2 0.125 == nearest_double 0.12)%Q /\
  (py_round2 0.875 == nearest_double 0.88)%Q.
Proof. split; vm_compute; reflexivity. Qed.

(** C8. A successful detection call answers with the classifier confidence
    rounded to two decimal places (the double closest to a number of
    hundredths that is within half a hundredth of it) and appends to
    [mood_history] a row that holds the confidence as the classifier gave
    it.  [/mood-history] answers a query for the row's session that has no
    effective bound with a listing that shows the row with the stored
    value; so whenever rounding changes the value, the confidence read back
    differs from the one [/detect] returned. *)
Theorem confidence_shown_and_stored (E : externals) (body : option json)
        (db db' : database) (mood_exec suggestion_exec : execution) (emotion : string)
        (shown : Q) (message tip activity sound : json) :
  detect_mood E body db mood_exec suggestion_exec
  = (DetectionOk emotion shown message tip activity sound, db') ->
  exists confidence row,
    detected E body emotion confidence (mood_session_id row) /\
    shown = py_round2 confidence /\
    (exists k : Z, shown = nearest_double (k # 100) /\
                   (Qabs ((k # 100) - confidence) <= 1 # 200)%Q) /\
    mood_history db' = (mood_history db ++ [row])%list /\
    mood_emotion row = emotion /\
    mood_confidence row = confidence /\
    (forall args,
        mood_session_id row = Some (args_get (arg_session_id args) "default") ->
        fits_int64 (args_get_int E (arg_limit args) 50) = true ->
        args_get_int E (arg_limit args) 50 < 0 \/
        Z.of_nat (List.length (mood_history db')) <= args_get_int E (arg_limit args) 50 ->
        exists history,
          fst (get_mood_history E args db') = MoodHistoryOk history /\
          In (mood_entry_of row) history) /\
    entry_confidence (mood_entry_of row) = confidence /\
    (~ (py_round2 confidence == confidence)%Q ->
     ~ (entry_confidence (mood_entry_of row) == shown)%Q).
Proof.
  intros Hrun.
  destruct (detect_success_inv _ _ _ _ _ _ _ _ _ _ _ _ Hrun)
    as (confidence & session & now_mood & _ & Hdet & -> & Hrows).
  exists confidence,
    (mkMoodRow (next_id (map mood_id (mood_history db))) emotion confidence now_mood session).
  cbn [mood_session_id mood_emotion mood_confidence mood_entry_of entry_confidence].
  split; [assumption|]. split; [reflexivity|].
  split; [exists (round_half_even (confidence * 100)); split;
          [reflexivity | apply decimal_round2_close]|].
  split; [exact Hrows|]. split; [reflexivity|]. split; [reflexivity|].
  split; [|split; [reflexivity|]].
  - intros args Hsession Hfits Hlimit.
    destruct (mood_history_answers E args db' Hfits) as [history Hanswer].
    exists history. split; [exact Hanswer|].
    eapply (mood_history_lists_row E args db'); try eassumption.
    rewrite Hrows. cbn. apply in_or_app. right. now left.
  - intros Hchanged Hsame. apply Hchanged. symmetry. exact Hsame.
Qed.

Lemma confidence_shown_and_stored_witness :
  let E := sample_externals (Some [sample_face; other_face]) None (fun _ => None) in
  exists db',
    detect_mood E sample_detect_body empty_database (Runs 100) (Runs 101)
    = (DetectionOk "happy" (py_round2 0.875)
         (JStr "Your positive energy is wonderful! Embrace this joyful moment and let it fill you with warmth.")
         (JStr "Share your happiness with others - positive emotions are contagious in the best way.")
         (JStr "Try dancing to your favorite song or call someone you care about.")
         (JStr "uplifting nature sounds"), db') /\
    exists row,
      mood_history db' = [row] /\
      mood_confidence row = 0.875%Q /\
      ~ (entry_confidence (mood_entry_of row) == py_round2 0.875)%Q.
Proof.
  cbv zeta. eexists. split; [reflexivity|].
  destruct (confidence_shown_and_stored
              (sample_externals (Some [sample_face; other_face]) None (fun _ => None))
              sample_detect_body empty_database _ (Runs 100) (Runs 101) "happy"
              (py_round2 0.875) _ _ _ _ eq_refl)
    as (confidence & row & Hdet & Hshown & _ & Hrows & _ & Hstored & _ & _ & Hdiffer).
  exists row. split; [exact Hrows|].
  cbn in Hrows. injection Hrows as <-. cbn in Hstored. subst confidence.
  split; [reflexivity|].
  apply Hdiffer. vm_compute. discriminate.
Defined.

(** * Further properties of the handlers *)

(** ** Decoding the image *)

Lemma has_char_app (c : ascii) (a b : string) :
  has_char c (a ++ b) = has_char c a || has_char c b.
Proof.
  induction a as [|x a IH]; simpl; [reflexivity|].
  rewrite IH. now rewrite orb_assoc.
Qed.

Lemma split_char_no_sep (c : ascii) (s : string) :
  has_char c s = false -> split_char c s = [s].
Proof.
  induction s as [|x s IH]; simpl; [reflexivity|].
  intros H. apply orb_false_iff in H. destruct H as [Hx Hs].
  rewrite Hx, (IH Hs). reflexivity.
Qed.

Lemma split_char_at_sep (c : ascii) (a b : string) :
  has_char c a = false ->
  split_char c (a ++ String c b) = a :: split_char c b.
Proof.
  induction a as [|x a IH]; simpl.
  - intros _. now rewrite Ascii.eqb_refl.
  - intros H. apply orb_false_iff in H. destruct H as [Hx Ha].
    rewrite Hx, (IH Ha). reflexivity.
Qed.

(** X1. [decode_base64_image] hands to the decoder the whole string when it
    has no comma, and otherwise exactly the text between the first comma and
    the second one (or the end): the data-URL prefix is dropped, and so is
    anything after a second comma. *)
Theorem decode_payload (E : externals) (prefix payload rest : string) :
  has_char ","%char prefix = false ->
  has_char ","%char payload = false ->
  decode_base64_image E (JStr payload) = open_image E payload /\
  decode_base64_image E (JStr (prefix ++ "," ++ payload)) = open_image E payload /\
  decode_base64_image E (JStr (prefix ++ "," ++ payload ++ "," ++ rest))
  = open_image E payload.
Proof.
  intros Hprefix Hpayload. unfold decode_base64_image. repeat split.
  - now rewrite Hpayload.
  - rewrite has_char_app. cbn [append has_char]. rewrite Ascii.eqb_refl, orb_true_r.
    rewrite (split_char_at_sep _ _ _ Hprefix), (split_char_no_sep _ _ Hpayload).
    reflexivity.
  - rewrite has_char_app. cbn [append has_char]. rewrite Ascii.eqb_refl, orb_true_r.
    rewrite (split_char_at_sep _ _ _ Hprefix).
    cbn [append]. rewrite (split_char_at_sep _ _ _ Hpayload). reflexivity.
Qed.

Lemma decode_payload_witness :
  let E := mkExternals string (fun _ => None) (fun s => Some s) None (fun _ => None)
                       (fun _ => "?") (fun _ => None) parse_decimal
                       unit (fun _ => "2024-05-01T12:00:00") in
  has_char ","%char "data:image/png;base64" = false /\
  has_char ","%char "iVBORw0KGgo=" = false /\
  decode_base64_image E (JStr "data:image/png;base64,iVBORw0KGgo=") = Some "iVBORw0KGgo=" /\
  decode_base64_image E (JStr "data:image/png;base64,iVBORw0KGgo=,tail") = Some "iVBORw0KGgo=".
Proof.
  cbv zeta. split; [reflexivity|]. split; [reflexivity|].
  destruct (decode_payload
              (mkExternals string (fun _ => None) (fun s => Some s) None (fun _ => None)
                           (fun _ => "?") (fun _ => None) parse_decimal
                           unit (fun _ => "2024-05-01T12:00:00"))
              "data:image/png;base64" "iVBORw0KGgo=" "tail" eq_refl eq_refl)
    as (_ & Hone & Htwo).
  split; [exact Hone | exact Htwo].
Defined.

(** ** The dominant emotion *)

(** Where the loop of [max] stops: on the start element, which then bounds
    all the others, or on a later element that is strictly above the start
    value and everything before it. *)
Lemma max_loop_first (key : string -> option Q) (rest : list string) :
  forall best bestv top,
    (forall k, In k rest -> exists v, key k = Some v) ->
    max_loop key best bestv rest = Some top ->
    (top = best /\ forall k v, In k rest -> key k = Some v -> (v <= bestv)%Q) \/
    (exists pre post topv,
        rest = (pre ++ top :: post)%list /\ key top = Some topv /\
        (bestv < topv)%Q /\
        forall k v, In k pre -> key k = Some v -> (v < topv)%Q).
Proof.
  induction rest as [|k rest IH]; intros best bestv top Hdef; simpl.
  - intros H. injection H as <-. left. split; [reflexivity|]. intros ? ? [].
  - destruct (Hdef k (or_introl eq_refl)) as [v Hv]. rewrite Hv.
    assert (Hdef' : forall k0, In k0 rest -> exists v0, key k0 = Some v0)
      by (intros; apply Hdef; now right).
    destruct (Qltb bestv v) eqn:Hcmp; intros Hrun.
    + apply Qltb_true_lt in Hcmp. right.
      destruct (IH _ _ _ Hdef' Hrun)
        as [[-> Hall]|(pre & post & topv & -> & Htop & Hlt & Hpre)].
      * exists [], rest, v. repeat split; auto. intros ? ? [].
      * exists (k :: pre), post, topv. repeat split; auto.
        -- eapply Qlt_trans; eassumption.
        -- intros k0 v0 [->|Hin] Hk0; [|eauto].
           rewrite Hv in Hk0. injection Hk0 as <-. assumption.
    + apply Qltb_false_le in Hcmp.
      destruct (IH _ _ _ Hdef' Hrun)
        as [[-> Hall]|(pre & post & topv & -> & Htop & Hlt & Hpre)].
      * left. split; [reflexivity|].
        intros k0 v0 [->|Hin] Hk0; [|eauto].
        rewrite Hv in Hk0. injection Hk0 as <-. assumption.
      * right. exists (k :: pre), post, topv. repeat split; auto.
        intros k0 v0 [->|Hin] Hk0; [|eauto].
        rewrite Hv in Hk0. injection Hk0 as <-.
        eapply Qle_lt_trans; eassumption.
Qed.

(** X2. Among labels with the highest score [detect_emotion] returns the one
    that comes first in the mapping: every label listed before the returned
    one has a strictly lower score. *)
Theorem detect_emotion_first_maximum (E : externals) (img : image E)
        (first : face) (others : list face) (label : string) (score : Q) :
  detect_emotions E img = Some (first :: others) ->
  detect_emotion E img = (Some label, score) ->
  exists before after,
    dict_keys (emotions first) = (before ++ label :: after)%list /\
    forall k s, In k before -> dict_get (emotions first) k = Some s -> (s < score)%Q.
Proof.
  intros Hfaces. unfold detect_emotion. rewrite Hfaces. cbv zeta.
  destruct (emotions first) as [|[k0 v0] d] eqn:Hem; [discriminate|].
  unfold py_max, dict_keys. cbn [map fst].
  assert (Hk0 : dict_get ((k0, v0) :: d) k0 = Some v0)
    by (simpl; now rewrite String.eqb_refl).
  rewrite Hk0.
  destruct (max_loop _ k0 v0 (map fst d)) as [top|] eqn:Hrun; [|discriminate].
  destruct (dict_get ((k0, v0) :: d) top) as [topv|] eqn:Htop; [|discriminate].
  intros H. injection H as <- <-.
  assert (Hdef : forall k, In k (map fst d) ->
                           exists v, dict_get ((k0, v0) :: d) k = Some v).
  { intros k Hin. apply in_keys_dict_get. now right. }
  destruct (max_loop_first _ _ _ _ _ Hdef Hrun)
    as [[-> _]|(pre & post & topv' & Hsplit & Htop' & Hlt & Hpre)].
  - exists [], (map fst d). split; [reflexivity|]. intros ? ? [].
  - rewrite Htop in Htop'. injection Htop' as <-.
    exists (k0 :: pre), post. split; [cbn; now rewrite Hsplit|].
    intros k s [<-|Hin] Hk; [|eauto].
    rewrite Hk0 in Hk. injection Hk as <-. assumption.
Qed.

Lemma detect_emotion_first_maximum_witness :
  let E := sample_externals (Some [tied_face]) None (fun _ => None) in
  detect_emotion E tt = (Some "sad", 0.4375%Q) /\
  exists before after,
    dict_keys (emotions tied_face) = (before ++ "sad" :: after)%list /\
    forall k s, In k before -> dict_get (emotions tied_face) k = Some s -> (s < 0.4375)%Q.
Proof.
  cbv zeta. split; [reflexivity|].
  exact (detect_emotion_first_maximum
           (sample_externals (Some [tied_face]) None (fun _ => None)) tt
           tied_face [] "sad" 0.4375%Q eq_refl eq_refl).
Defined.

(** X3. [detect_emotion] gives no emotion exactly when the classifier
    raises, reports no face, or reports a first face with an empty score
    mapping; the confidence it returns is then [0.0]. *)
Theorem detect_emotion_nothing (E : externals) (img : image E) :
  (fst (detect_emotion E img) = None <-> no_emotion E img) /\
  (fst (detect_emotion E img) = None -> snd (detect_emotion E img) = 0%Q).
Proof.
  split; [apply detect_emotion_none_iff|].
  unfold detect_emotion.
  destruct (detect_emotions E img) as [[|first others]|]; try reflexivity.
  cbv zeta. destruct (py_max _ _) as [top|]; [|reflexivity].
  destruct (dict_get _ top); [discriminate | reflexivity].
Qed.

Lemma detect_emotion_nothing_witness :
  let E := sample_externals (Some []) None (fun _ => None) in
  fst (detect_emotion E tt) = None /\ snd (detect_emotion E tt) = 0%Q.
Proof.
  cbv zeta. split; [reflexivity|].
  exact (proj2 (detect_emotion_nothing
                  (sample_externals (Some []) None (fun _ => None)) tt) eq_refl).
Defined.

(** ** What a detection writes *)

(** X4. A successful detection appends exactly one row to [mood_history] and
    one to [suggestions] and leaves [chat_history] alone.  Both rows carry
    the emotion of the answer and the clock reading of their own insert, and
    the suggestion row holds the four fields of the answer as stored texts. *)
Theorem detection_writes_pair (E : externals) (body : option json) (db db' : database)
        (mood_exec suggestion_exec : execution) (emotion : string) (shown : Q)
        (message tip activity sound : json) :
  detect_mood E body db mood_exec suggestion_exec
  = (DetectionOk emotion shown message tip activity sound, db') ->
  exists observation suggestion,
    mood_history db' = (mood_history db ++ [observation])%list /\
    suggestions db' = (suggestions db ++ [suggestion])%list /\
    chat_history db' = chat_history db /\
    mood_emotion observation = emotion /\
    suggestion_emotion suggestion = emotion /\
    mood_exec = Runs (mood_timestamp observation) /\
    suggestion_exec = Runs (suggestion_timestamp suggestion) /\
    bind_text_not_null E message = Some (suggestion_message suggestion) /\
    bind_text_not_null E tip = Some (suggestion_tip suggestion) /\
    bind_text E activity = Some (suggestion_activity suggestion) /\
    bind_text E sound = Some (suggestion_sound suggestion).
Proof.
  unfold detect_mood. destruct body as [data|]; [|discriminate].
  destruct (negb (truthy data)); [discriminate|].
  destruct (py_in "image" data) as [[|]|]; try discriminate.
  destruct data as [| | | |items|d]; cbn [py_getitem py_get]; try discriminate.
  destruct (dict_get d "image") as [v|]; [|discriminate].
  destruct (decode_base64_image E v) as [img|]; [|discriminate].
  destruct (detect_emotion E img) as [[label|] confidence]; [|discriminate].
  unfold insert_mood.
  destruct (bind_text E (dict_get_default d "session_id" (JStr "default")))
    as [session|]; [|discriminate].
  destruct mood_exec as [|now_mood]; [discriminate|].
  destruct (py_getitem _ "message") as [m|]; [|discriminate].
  destruct (py_getitem _ "tip") as [t|]; [|discriminate].
  destruct (py_get _ "activity" _) as [a|]; [|discriminate].
  destruct (py_get _ "sound" _) as [s|]; [|discriminate].
  unfold insert_suggestion.
  destruct (bind_text_not_null E m) as [mt|] eqn:Hm; [|discriminate].
  destruct (bind_text_not_null E t) as [tt'|] eqn:Ht; [|discriminate].
  destruct (bind_text E a) as [at'|] eqn:Ha; [|discriminate].
  destruct (bind_text E s) as [st|] eqn:Hs; [|discriminate].
  destruct suggestion_exec as [|now_suggestion]; [discriminate|].
  intros H. injection H as <- _ <- <- <- <- <-.
  do 2 eexists. cbn.
  repeat split; try reflexivity; assumption.
Qed.

Lemma detection_writes_pair_witness :
  let E := sample_externals (Some [sample_face; other_face]) None (fun _ => None) in
  let r := detect_mood E sample_detect_body sample_store (Runs 100) (Runs 101) in
  success (fst r) /\
  List.length (mood_history (snd r)) = 5%nat /\
  List.length (suggestions (snd r)) = 1%nat /\
  chat_history (snd r) = chat_history sample_store.
Proof.
  cbv zeta. split; [exact I|].
  destruct (detection_writes_pair
              (sample_externals (Some [sample_face; other_face]) None (fun _ => None))
              sample_detect_body sample_store _ (Runs 100) (Runs 101) _ _ _ _ _ _ eq_refl)
    as (observation & suggestion & Hmood & Hsug & Hchat & _).
  split; [reflexivity|]. split; [reflexivity | exact Hchat].
Defined.

Lemma detect_mood_refused (E : externals) (body : option json) (db : database)
      (suggestion_exec : execution) (emotion : string) (confidence : Q) (session : cell) :
  detected E body emotion confidence session ->
  detect_mood E body db Refused suggestion_exec = (internal_server_error, db).
Proof.
  intros (d & v & img & -> & Himage & Hdecode & Hdetect & Hbind).
  unfold detect_mood.
  assert (Htruthy : truthy (JObj d) = true)
    by (destruct d; [discriminate Himage | reflexivity]).
  rewrite Htruthy. cbn [negb py_in py_getitem py_get].
  rewrite (dict_get_existsb _ _ _ Himage), Himage, Hdecode, Hdetect.
  unfold insert_mood. rewrite Hbind. reflexivity.
Qed.

(** X5. The mood row is committed before the suggestion is read.  When the
    generated JSON has no [message] or no [tip] (or is no object at all), a
    validated detection answers 500 and writes no suggestion row; if the
    store ran the mood insert, the observation stays in [mood_history]
    all the same, and if it refused it, nothing is written. *)
Theorem detection_partial_write (E : externals) (body : option json) (db : database)
        (mood_exec suggestion_exec : execution)
        (emotion : string) (confidence : Q) (session : cell) :
  detected E body emotion confidence session ->
  py_getitem (get_therapeutic_suggestion E emotion true) "message" = None \/
  py_getitem (get_therapeutic_suggestion E emotion true) "tip" = None ->
  detect_mood E body db mood_exec suggestion_exec
  = (internal_server_error,
     match mood_exec with
     | Runs now_mood => with_mood_row db emotion confidence now_mood session
     | Refused => db
     end).
Proof.
  intros Hdet Hmissing. destruct mood_exec as [|now_mood].
  - eapply detect_mood_refused; eassumption.
  - rewrite (detect_mood_detected _ _ _ _ _ _ _ _ Hdet). cbv zeta.
    destruct Hmissing as [-> | Htip]; [reflexivity|].
    rewrite Htip. destruct (py_getitem _ "message"); reflexivity.
Qed.

Lemma detection_partial_write_witness :
  let E := answering_externals "[1, 2]" (Some (JArr [JNum 1; JNum 2])) in
  let r := detect_mood E sample_detect_body empty_database (Runs 100) (Runs 101) in
  detected E sample_detect_body "happy" 0.875%Q (Some "s1") /\
  py_getitem (get_therapeutic_suggestion E "happy" true) "message" = None /\
  fst r = internal_server_error /\
  map mood_emotion (mood_history (snd r)) = ["happy"] /\
  suggestions (snd r) = [].
Proof.
  cbv zeta. split; [apply sample_detected|]. split; [reflexivity|].
  rewrite (detection_partial_write
             (answering_externals "[1, 2]" (Some (JArr [JNum 1; JNum 2])))
             sample_detect_body empty_database (Runs 100) (Runs 101)
             "happy" 0.875%Q (Some "s1")
             (sample_detected _ _) (or_introl eq_refl)).
  repeat split; reflexivity.
Defined.

(** X6. When the store runs both inserts, a generated suggestion that is an
    object with texts under [message] and [tip] is accepted as it is; a
    missing [activity] or [sound] is answered and stored as the empty text. *)
Theorem generated_suggestion_defaults (E : externals) (body : option json) (db : database)
        (now_mood now_suggestion : Z) (emotion : string) (confidence : Q) (session : cell)
        (fields : list (string * json)) (m t : string) :
  detected E body emotion confidence session ->
  get_therapeutic_suggestion E emotion true = JObj fields ->
  dict_get fields "message" = Some (JStr m) ->
  dict_get fields "tip" = Some (JStr t) ->
  dict_get fields "activity" = None ->
  dict_get fields "sound" = None ->
  fst (detect_mood E body db (Runs now_mood) (Runs now_suggestion))
  = DetectionOk emotion (py_round2 confidence) (JStr m) (JStr t) (JStr "") (JStr "") /\
  suggestions (snd (detect_mood E body db (Runs now_mood) (Runs now_suggestion)))
  = (suggestions db ++
       [mkSuggestionRow (next_id (map suggestion_id (suggestions db)))
                        emotion m t (Some "") (Some "") now_suggestion])%list.
Proof.
  intros Hdet Hsug Hm Ht Ha Hs.
  rewrite (detect_mood_detected _ _ _ _ _ _ _ _ Hdet). cbv zeta.
  rewrite Hsug. cbn [py_getitem py_get]. unfold dict_get_default.
  rewrite Hm, Ht, Ha, Hs. split; reflexivity.
Qed.

Lemma generated_suggestion_defaults_witness :
  let fields := [("message", JStr "Breathe."); ("tip", JStr "Walk.")] in
  let E := answering_externals "{...}" (Some (JObj fields)) in
  detected E sample_detect_body "happy" 0.875%Q (Some "s1") /\
  get_therapeutic_suggestion E "happy" true = JObj fields /\
  fst (detect_mood E sample_detect_body empty_database (Runs 100) (Runs 101))
  = DetectionOk "happy" (py_round2 0.875) (JStr "Breathe.") (JStr "Walk.")
                (JStr "") (JStr "").
Proof.
  cbv zeta. split; [apply sample_detected|]. split; [reflexivity|].
  exact (proj1 (generated_suggestion_defaults
                  (answering_externals "{...}"
                     (Some (JObj [("message", JStr "Breathe."); ("tip", JStr "Walk.")])))
                  sample_detect_body empty_database 100 101 "happy" 0.875%Q (Some "s1")
                  [("message", JStr "Breathe."); ("tip", JStr "Walk.")]
                  "Breathe." "Walk."
                  (sample_detected _ _) eq_refl eq_refl eq_refl eq_refl eq_refl)).
Defined.

(** ** The chat handler, further *)

(** The two ways [/chat] ends: both turns written and the reply returned, or
    a failure with the store as it was. *)
Lemma chat_outcome (E : externals) (body : option json) (db : database)
      (user_exec : execution) (now_therapist : Z) (now : datetime E) :
  (exists d message text mood session now_user,
      body = Some (JObj d) /\
      user_exec = Runs now_user /\
      chat_fields_stored E d message text mood session /\
      chat E body db user_exec now_therapist now
      = (ChatOk (chat_reply_for E d message) (isoformat E now),
         with_chat_rows db text (chat_reply_for E d message) mood session
                        now_user now_therapist)) \/
  (exists status error,
      chat E body db user_exec now_therapist now = (Failure status error, db)).
Proof.
  destruct body as [[| | | |items|d]|];
    try (right; unfold chat; cbn;
         repeat match goal with
                | |- context [match ?x with _ => _ end] => destruct x
                | |- context [if ?x then _ else _] => destruct x
                end; do 2 eexists; reflexivity).
  destruct (dict_get d "message") as [message|] eqn:Hmsg.
  - assert (Htruthy : truthy (JObj d) = true)
      by (destruct d; [discriminate Hmsg | reflexivity]).
    destruct (bind_text_not_null E message) as [text|] eqn:Htext.
    + destruct (bind_text E (dict_get_default d "mood" JNull)) as [mood|] eqn:Hmood.
      * destruct (bind_text E (dict_get_default d "session_id" (JStr "default")))
          as [session|] eqn:Hsession.
        -- destruct user_exec as [|now_user].
           ++ right. unfold chat. rewrite Htruthy. cbn [negb py_in py_getitem py_get].
              rewrite (dict_get_existsb _ _ _ Hmsg), Hmsg.
              unfold insert_chat. rewrite Htext, Hmood, Hsession.
              do 2 eexists; reflexivity.
           ++ left. exists d, message, text, mood, session, now_user.
              assert (Hfields : chat_fields_stored E d message text mood session)
                by (repeat split; assumption).
              split; [reflexivity|]. split; [reflexivity|].
              split; [assumption|]. now apply chat_runs.
        -- right. unfold chat. rewrite Htruthy. cbn [negb py_in py_getitem py_get].
           rewrite (dict_get_existsb _ _ _ Hmsg), Hmsg.
           unfold insert_chat. rewrite Htext, Hmood, Hsession. do 2 eexists; reflexivity.
      * right. unfold chat. rewrite Htruthy. cbn [negb py_in py_getitem py_get].
        rewrite (dict_get_existsb _ _ _ Hmsg), Hmsg.
        unfold insert_chat. rewrite Htext, Hmood. do 2 eexists; reflexivity.
    + right. unfold chat. rewrite Htruthy. cbn [negb py_in py_getitem py_get].
      rewrite (dict_get_existsb _ _ _ Hmsg), Hmsg.
      unfold insert_chat. rewrite Htext. do 2 eexists; reflexivity.
  - right. unfold chat. destruct d as [|entry d']; [cbn; do 2 eexists; reflexivity|].
    cbn [truthy negb py_in py_getitem].
    destruct (existsb (String.eqb "message") (dict_keys (entry :: d'))) eqn:Hin;
      [|do 2 eexists; reflexivity].
    rewrite Hmsg. do 2 eexists; reflexivity.
Qed.

(** X7. [/chat] writes both turns or nothing: a call that succeeds appends
    the [user] row and the [therapist] row to [chat_history] and touches no
    other table; any other answer (400 or 500) leaves the whole store as it
    was, the [user] row included. *)
Theorem chat_all_or_nothing (E : externals) (body : option json) (db : database)
        (user_exec : execution) (now_therapist : Z) (now : datetime E) :
  let r := chat E body db user_exec now_therapist now in
  (success (fst r) /\
   (exists user_row therapist_row,
       chat_history (snd r) = (chat_history db ++ [user_row; therapist_row])%list) /\
   mood_history (snd r) = mood_history db /\
   suggestions (snd r) = suggestions db) \/
  (~ success (fst r) /\ snd r = db).
Proof.
  cbv zeta.
  destruct (chat_outcome E body db user_exec now_therapist now)
    as [(d & message & text & mood & session & now_user & _ & _ & _ & ->)
       |(status & error & ->)].
  - left. cbn. split; [exact I|]. split; [|split; reflexivity].
    do 2 eexists. rewrite <- app_assoc. reflexivity.
  - right. cbn. split; [intros H; exact H | reflexivity].
Qed.

(** X8. For a body that is absent or an object, [/chat] answers 400 exactly
    when the body is absent or has no [message] key (an empty object
    included); such an answer writes nothing. *)
Theorem chat_client_error_iff (E : externals) (body : option json) (db : database)
        (user_exec : execution) (now_therapist : Z) (now : datetime E) :
  absent_or_object body ->
  (client_error (fst (chat E body db user_exec now_therapist now)) <->
   message_missing body) /\
  (client_error (fst (chat E body db user_exec now_therapist now)) ->
   snd (chat E body db user_exec now_therapist now) = db).
Proof.
  unfold message_missing. intros [->|[d ->]].
  - cbn. split; [|reflexivity]. split; [now left | eexists; reflexivity].
  - destruct (dict_get d "message") as [message|] eqn:Hmsg.
    + assert (Hnot : ~ client_error
                       (fst (chat E (Some (JObj d)) db user_exec now_therapist now))).
      { unfold chat.
        assert (Htruthy : truthy (JObj d) = true)
          by (destruct d; [discriminate Hmsg | reflexivity]).
        rewrite Htruthy. cbn [negb py_in py_getitem py_get].
        rewrite (dict_get_existsb _ _ _ Hmsg), Hmsg.
        destruct (insert_chat E db message _ _ _ _); [|intro; client_error_absurd].
        destruct (insert_chat _ _ _ _ _ _ _); intro; client_error_absurd. }
      split; [|intros H; contradiction].
      split; [intros H; contradiction|].
      intros [Habs|(d' & Hd & Hnone)]; [discriminate|].
      injection Hd as <-. congruence.
    + assert (Hrun : chat E (Some (JObj d)) db user_exec now_therapist now
                     = (Failure 400 "No message provided", db)).
      { unfold chat. destruct d as [|entry d']; [reflexivity|].
        cbn [truthy negb py_in].
        destruct (existsb (String.eqb "message") (dict_keys (entry :: d'))) eqn:Hin;
          [|reflexivity].
        apply existsb_dict_get in Hin. destruct Hin as [v Hv]. congruence. }
      rewrite Hrun. cbn. split; [|reflexivity].
      split; [|intros _; eexists; reflexivity].
      intros _. right. exists d. auto.
Qed.

Lemma chat_client_error_iff_witness :
  let E := sample_externals None None (fun _ => None) in
  let body := Some (JObj [("mood", JStr "sad")]) in
  absent_or_object body /\
  message_missing body /\
  client_error (fst (chat E body sample_store (Runs 100) 101 tt)) /\
  snd (chat E body sample_store (Runs 100) 101 tt) = sample_store.
Proof.
  cbv zeta.
  assert (Hbody : absent_or_object (Some (JObj [("mood", JStr "sad")])))
    by (right; eexists; reflexivity).
  assert (Hmissing : message_missing (Some (JObj [("mood", JStr "sad")])))
    by (right; eexists; split; reflexivity).
  destruct (chat_client_error_iff
              (sample_externals None None (fun _ => None))
              (Some (JObj [("mood", JStr "sad")])) sample_store (Runs 100) 101 tt Hbody)
    as [Hiff Hkeep].
  split; [exact Hbody|]. split; [exact Hmissing|].
  split; [exact (proj2 Hiff Hmissing) | exact (Hkeep (proj2 Hiff Hmissing))].
Defined.

(** ** The reply *)

Lemma last_five_recent {A : Type} (older recent : list A) :
  List.length recent = 5%nat -> last_five (older ++ recent) = recent.
Proof.
  intros Hlen. unfold last_five. rewrite length_app, Hlen.
  replace (List.length older + 5 - 5)%nat with (List.length older + 0)%nat by lia.
  rewrite skipn_app, Nat.add_0_r, skipn_all, Nat.sub_diag. reflexivity.
Qed.

(** X9. Only the last five prior turns reach the prompt: with five turns at
    the end of the history, the reply is the same whatever comes before them,
    malformed entries included. *)
Theorem reply_uses_last_five (E : externals) (message mood : json)
        (older recent : list json) :
  List.length recent = 5%nat ->
  get_chat_response E message mood (JArr (older ++ recent))
  = get_chat_response E message mood (JArr recent).
Proof.
  intros Hlen. unfold get_chat_response, build_context.
  assert (Hrecent : truthy (JArr recent) = true)
    by (destruct recent; [discriminate Hlen | reflexivity]).
  assert (Hall : truthy (JArr (older ++ recent)) = true).
  { destruct older; [exact Hrecent | reflexivity]. }
  pose proof (last_five_recent [] recent Hlen) as Hself. cbn [app] in Hself.
  rewrite Hrecent, Hall, (last_five_recent older recent Hlen), Hself. reflexivity.
Qed.

Lemma reply_uses_last_five_witness :
  List.length (tl sample_turns) = 5%nat /\
  get_chat_response echo_externals (JStr "hello") JNull (JArr sample_turns)
  = get_chat_response echo_externals (JStr "hello") JNull (JArr (tl sample_turns)).
Proof.
  split; [reflexivity|].
  exact (reply_uses_last_five echo_externals (JStr "hello") JNull
           [JStr "not a turn"] (tl sample_turns) eq_refl).
Defined.

Lemma context_lines_bad (E : externals) (msgs : list json) (bad : json) :
  In bad msgs -> (forall d, bad <> JObj d) ->
  forall context, context_lines E msgs context = None.
Proof.
  intros Hin Hbad. induction msgs as [|msg msgs IH]; [destruct Hin|].
  intros context. simpl. destruct Hin as [->|Hin].
  - destruct bad; try reflexivity. destruct (Hbad fields eq_refl).
  - destruct (context_line E msg); [now apply IH | reflexivity].
Qed.

(** X10. A prior-turns value that cannot be read makes the reply the fixed
    failure sentence without the text generator being asked: this happens
    when the value is truthy and not a list, or when one of its last five
    entries is not an object. *)
Theorem unreadable_history_reply (E : externals) (message mood history : json)
        (generate_content : string -> llm_outcome) :
  model E = Some generate_content ->
  (truthy history = true /\ forall msgs, history <> JArr msgs) \/
  (exists msgs bad,
      history = JArr msgs /\ In bad (last_five msgs) /\ forall d, bad <> JObj d) ->
  get_chat_response E message mood history = failure_reply /\
  build_context E history = None.
Proof.
  intros Hmodel Hbad.
  assert (Hcontext : build_context E history = None).
  { unfold build_context. destruct Hbad as [[Htruthy Hnolist]|(msgs & bad & -> & Hin & Hno)].
    - rewrite Htruthy. destruct history; try reflexivity.
      destruct (Hnolist items eq_refl).
    - assert (Htruthy : truthy (JArr msgs) = true).
      { destruct msgs; [|reflexivity]. destruct Hin. }
      rewrite Htruthy. eapply context_lines_bad; eassumption. }
  split; [|exact Hcontext].
  unfold get_chat_response. now rewrite Hmodel, Hcontext.
Qed.

Lemma unreadable_history_reply_witness :
  model echo_externals = Some (fun prompt => Text prompt) /\
  In (JStr "not a turn") (last_five (firstn 5 sample_turns)) /\
  get_chat_response echo_externals (JStr "hello") JNull (JArr (firstn 5 sample_turns))
  = failure_reply.
Proof.
  split; [reflexivity|]. split; [simpl; tauto|].
  refine (proj1 (unreadable_history_reply echo_externals (JStr "hello") JNull
                   (JArr (firstn 5 sample_turns)) (fun prompt => Text prompt)
                   eq_refl (or_intror _))).
  exists (firstn 5 sample_turns), (JStr "not a turn").
  split; [reflexivity|]. split; [simpl; tauto|]. discriminate.
Defined.

Lemma rstrip_idempotent (s : string) : rstrip (rstrip s) = rstrip s.
Proof.
  induction s as [|c s IH]; [reflexivity|].
  cbn [rstrip]. destruct (rstrip s) as [|k kept] eqn:Hkept.
  - destruct (py_isspace c) eqn:Hc; [reflexivity|].
    cbn [rstrip]. now rewrite Hc.
  - cbn [rstrip] in IH |- *. rewrite IH. reflexivity.
Qed.

Lemma lstrip_fixed (s : string) :
  match s with
  | EmptyString => True
  | String c _ => py_isspace c = false
  end -> lstrip s = s.
Proof. destruct s as [|c s]; [reflexivity|]. simpl. now intros ->. Qed.

Lemma lstrip_clean (s : string) :
  match lstrip s with
  | EmptyString => True
  | String c _ => py_isspace c = false
  end.
Proof.
  induction s as [|c s IH]; [exact I|].
  simpl. destruct (py_isspace c) eqn:Hc; [exact IH | exact Hc].
Qed.

Lemma rstrip_keeps_clean (s : string) :
  match s with
  | EmptyString => True
  | String c _ => py_isspace c = false
  end ->
  match rstrip s with
  | EmptyString => True
  | String c _ => py_isspace c = false
  end.
Proof.
  destruct s as [|c s]; [auto|]. intros Hc. cbn [rstrip].
  destruct (rstrip s); [rewrite Hc|]; exact Hc.
Qed.

Lemma strip_idempotent (s : string) : strip (strip s) = strip s.
Proof.
  unfold strip.
  rewrite (lstrip_fixed (rstrip (lstrip s))).
  - apply rstrip_idempotent.
  - apply rstrip_keeps_clean, lstrip_clean.
Qed.

(** X11. Whatever the text generator does, the reply of [get_chat_response]
    has no whitespace at either end: stripping it again changes nothing. *)
Theorem reply_is_stripped (E : externals) (message mood history : json) :
  strip (get_chat_response E message mood history)
  = get_chat_response E message mood history.
Proof.
  pose proof (get_chat_response_cases E message mood history) as Hcases.
  cbv zeta in Hcases. destruct (model E) as [g|].
  - destruct Hcases as [->|(prompt & text & _ & ->)].
    + reflexivity.
    + apply strip_idempotent.
  - rewrite Hcases. reflexivity.
Qed.

(** ** Sessions *)

Lemma filter_app_none {A : Type} (f : A -> bool) (l more : list A) :
  Forall (fun x => f x = false) more -> filter f (l ++ more) = filter f l.
Proof.
  intros Hnone. rewrite filter_app.
  replace (filter f more) with (@nil A); [now rewrite app_nil_r|].
  induction Hnone as [|x more Hx _ IH]; [reflexivity|].
  simpl. now rewrite Hx.
Qed.

Lemma cell_is_other (s : string) (c : cell) : c <> Some s -> cell_is s c = false.
Proof.
  intros Hne. destruct (cell_is s c) eqn:H; [|reflexivity].
  apply cell_is_true in H. contradiction.
Qed.

Lemma mood_listing_by_rows (E : externals) (args : query_args) (db db' : database) :
  session_moods db' (args_get (arg_session_id args) "default")
  = session_moods db (args_get (arg_session_id args) "default") ->
  fst (get_mood_history E args db') = fst (get_mood_history E args db).
Proof.
  unfold session_moods, get_mood_history, select_mood_history. intros ->.
  destruct (fits_int64 _); reflexivity.
Qed.

Lemma chat_listing_by_rows (E : externals) (args : query_args) (db db' : database) :
  session_chats db' (args_get (arg_session_id args) "default")
  = session_chats db (args_get (arg_session_id args) "default") ->
  fst (get_chat_history E args db') = fst (get_chat_history E args db).
Proof.
  unfold session_chats, get_chat_history, select_chat_history. intros ->.
  destruct (fits_int64 _); reflexivity.
Qed.

(** The mood rows a detection leaves: those it found, and at most one more,
    stored under the session the body asks for. *)
Lemma detect_mood_rows (E : externals) (body : option json) (db : database)
      (mood_exec suggestion_exec : execution) :
  let db' := snd (detect_mood E body db mood_exec suggestion_exec) in
  (mood_history db' = mood_history db \/
   exists row,
     mood_history db' = (mood_history db ++ [row])%list /\
     requested_session E body = Some (mood_session_id row)) /\
  chat_history db' = chat_history db.
Proof.
  cbv zeta. unfold detect_mood. destruct body as [data|]; [|cbn; auto].
  destruct (negb (truthy data)); [cbn; auto|].
  destruct (py_in "image" data) as [[|]|]; try (cbn; auto; fail).
  destruct data as [| | | |items|d]; cbn [py_getitem py_get]; try (cbn; auto; fail).
  destruct (dict_get d "image") as [v|]; [|cbn; auto].
  destruct (decode_base64_image E v) as [img|]; [|cbn; auto].
  destruct (detect_emotion E img) as [[label|] confidence]; [|cbn; auto].
  unfold insert_mood. cbn [requested_session].
  destruct (bind_text E (dict_get_default d "session_id" (JStr "default")))
    as [session|]; [|cbn; auto].
  destruct mood_exec as [|now_mood]; [cbn; auto|].
  assert (Hrow : forall db2 : database,
             mood_history db2
             = (mood_history db ++
                  [mkMoodRow (next_id (map mood_id (mood_history db)))
                             label confidence now_mood session])%list ->
             chat_history db2 = chat_history db ->
             (mood_history db2 = mood_history db \/
              exists row,
                mood_history db2 = (mood_history db ++ [row])%list /\
                Some session = Some (mood_session_id row)) /\
             chat_history db2 = chat_history db).
  { intros db2 Hm Hc. split; [|exact Hc]. right. eexists. split; [exact Hm | reflexivity]. }
  destruct (py_getitem _ "message") as [m|]; [|apply Hrow; reflexivity].
  destruct (py_getitem _ "tip") as [t|]; [|apply Hrow; reflexivity].
  destruct (py_get _ "activity" _) as [a|]; [|apply Hrow; reflexivity].
  destruct (py_get _ "sound" _) as [s|]; [|apply Hrow; reflexivity].
  unfold insert_suggestion.
  destruct (bind_text_not_null E m); [|apply Hrow; reflexivity].
  destruct (bind_text_not_null E t); [|apply Hrow; reflexivity].
  destruct (bind_text E a); [|apply Hrow; reflexivity].
  destruct (bind_text E s); [|apply Hrow; reflexivity].
  destruct suggestion_exec; apply Hrow; reflexivity.
Qed.

(** X12. Sessions do not leak into each other: a POST whose session
    identifier is not stored as the text [s] (another session, a NULL, or a
    request that fails) leaves the answers of [/mood-history] and
    [/chat-history] for session [s] as they were, whatever limit is asked. *)
Theorem other_session_unchanged (E : externals) (args : query_args) (db : database)
        (body : option json) :
  requested_session E body <> Some (Some (args_get (arg_session_id args) "default")) ->
  (forall mood_exec suggestion_exec,
      let db' := snd (detect_mood E body db mood_exec suggestion_exec) in
      fst (get_mood_history E args db') = fst (get_mood_history E args db) /\
      fst (get_chat_history E args db') = fst (get_chat_history E args db)) /\
  (forall user_exec now_therapist now,
      let db' := snd (chat E body db user_exec now_therapist now) in
      fst (get_mood_history E args db') = fst (get_mood_history E args db) /\
      fst (get_chat_history E args db') = fst (get_chat_history E args db)).
Proof.
  intros Hother. split.
  - intros mood_exec suggestion_exec. cbv zeta.
    destruct (detect_mood_rows E body db mood_exec suggestion_exec)
      as [[Hsame|(row & Hrows & Hsession)] Hchat]; cbv zeta in *.
    + split; [apply mood_listing_by_rows | apply chat_listing_by_rows].
      * unfold session_moods. now rewrite Hsame.
      * unfold session_chats. now rewrite Hchat.
    + split; [apply mood_listing_by_rows | apply chat_listing_by_rows].
      * unfold session_moods. rewrite Hrows. apply filter_app_none.
        constructor; [|constructor]. apply cell_is_other.
        intros Heq. apply Hother. now rewrite Hsession, Heq.
      * unfold session_chats. now rewrite Hchat.
  - intros user_exec now_therapist now. cbv zeta.
    destruct (chat_outcome E body db user_exec now_therapist now)
      as [(d & message & text & mood & session & now_user & -> & _ & Hfields & ->)
         |(status & error & ->)]; [|split; reflexivity].
    cbn [snd]. split; [apply mood_listing_by_rows; reflexivity|].
    apply chat_listing_by_rows. unfold session_chats, with_chat_rows.
    cbv zeta. cbn [chat_history]. rewrite <- app_assoc. apply filter_app_none.
    destruct Hfields as (_ & _ & _ & Hsession). cbn [requested_session] in Hother.
    assert (Hne : session <> Some (args_get (arg_session_id args) "default"))
      by (intros ->; now apply Hother).
    repeat constructor; cbn [chat_session_id]; now apply cell_is_other.
Qed.

Lemma other_session_unchanged_witness :
  let E := sample_externals (Some [sample_face]) None (fun _ => None) in
  let args := mkArgs (Some "s2") None in
  requested_session E sample_detect_body <> Some (Some "s2") /\
  fst (get_mood_history E args (snd (detect_mood E sample_detect_body sample_store (Runs 100) (Runs 101))))
  = MoodHistoryOk [mkMoodEntry "sad" 0.625 20]%Q.
Proof.
  cbv zeta.
  assert (Hother : requested_session (sample_externals (Some [sample_face]) None (fun _ => None))
                                     sample_detect_body <> Some (Some "s2"))
    by (cbn; discriminate).
  split; [exact Hother|].
  destruct (other_session_unchanged
              (sample_externals (Some [sample_face]) None (fun _ => None))
              (mkArgs (Some "s2") None) sample_store sample_detect_body Hother)
    as [Hdetect _].
  destruct (Hdetect (Runs 100) (Runs 101)) as [Hmood _]. cbv zeta in Hmood.
  rewrite Hmood. reflexivity.
Defined.

Lemma chat_history_lists_row (E : externals) (args : query_args) (db : database)
      (history : list chat_entry) (row : chat_row) :
  In row (chat_history db) ->
  chat_session_id row = Some (args_get (arg_session_id args) "default") ->
  unbounded (args_get_int E (arg_limit args) 100) (List.length (chat_history db)) ->
  fst (get_chat_history E args db) = ChatHistoryOk history ->
  In (chat_entry_of row) history.
Proof.
  intros Hin Hsession Hlimit. unfold get_chat_history, select_chat_history.
  destruct (fits_int64 _); [|discriminate].
  cbn [fst]. intros H. injection H as <-. apply in_map.
  set (leb := fun a b : chat_row => chat_timestamp a <=? chat_timestamp b).
  set (matching := filter _ (chat_history db)).
  assert (Hsorted : In row (order_by leb matching)).
  { apply (Permutation_in _ (Permutation_sym (order_by_perm _ leb matching))).
    apply filter_In. split; [assumption|]. now apply cell_is_true. }
  unfold sql_limit. destruct (Z.ltb_spec (args_get_int E (arg_limit args) 100) 0);
    [assumption|].
  rewrite firstn_all2; [assumption|].
  rewrite order_by_length.
  pose proof (filter_length_le (fun r => cell_is (args_get (arg_session_id args) "default")
                                                 (chat_session_id r)) (chat_history db))
    as Hle.
  fold matching in Hle. destruct Hlimit; lia.
Qed.

(** X13. What a chat call writes can be read back: after a successful call
    whose session identifier is stored as the text [s], an unbounded
    [/chat-history] query for [s] lists the [user] turn and the [therapist]
    turn, the latter with the reply that was returned, each with the clock
    reading of its insert. *)
Theorem chat_turns_listed (E : externals) (body : option json) (db db' : database)
        (user_exec : execution) (now_therapist : Z) (now : datetime E)
        (reply timestamp : string)
        (args : query_args) (history : list chat_entry) :
  chat E body db user_exec now_therapist now = (ChatOk reply timestamp, db') ->
  requested_session E body = Some (Some (args_get (arg_session_id args) "default")) ->
  unbounded (args_get_int E (arg_limit args) 100) (List.length (chat_history db')) ->
  fst (get_chat_history E args db') = ChatHistoryOk history ->
  exists text mood now_user,
    user_exec = Runs now_user /\
    In (mkChatEntry text "user" mood now_user) history /\
    In (mkChatEntry reply "therapist" mood now_therapist) history.
Proof.
  intros Hrun Hsession Hlimit Hanswer.
  destruct (chat_success_inv _ _ _ _ _ _ _ _ _ Hrun)
    as (d & message & text & mood & session & now_user & -> & -> & Hfields).
  rewrite (chat_runs _ _ _ _ _ _ _ _ _ _ Hfields) in Hrun.
  injection Hrun as <- _ <-.
  cbn [requested_session] in Hsession.
  destruct Hfields as (_ & _ & _ & Hbound). rewrite Hbound in Hsession.
  injection Hsession as ->.
  exists text, mood, now_user. split; [reflexivity|].
  set (db2 := with_chat_rows db text (chat_reply_for E d message) mood
                (Some (args_get (arg_session_id args) "default"))
                now_user now_therapist) in *.
  assert (Hrows : exists user_id therapist_id,
             chat_history db2
             = (chat_history db ++
                  [mkChatRow user_id text "user" mood now_user
                             (Some (args_get (arg_session_id args) "default"));
                   mkChatRow therapist_id (chat_reply_for E d message) "therapist" mood
                             now_therapist
                             (Some (args_get (arg_session_id args) "default"))])%list).
  { do 2 eexists. unfold db2, with_chat_rows. cbv zeta. cbn [chat_history].
    rewrite <- app_assoc. reflexivity. }
  destruct Hrows as (user_id & therapist_id & Hrows).
  split.
  - apply (chat_history_lists_row E args db2 history
             (mkChatRow user_id text "user" mood now_user
                        (Some (args_get (arg_session_id args) "default"))));
      try assumption; [|reflexivity].
    rewrite Hrows. apply in_or_app. right. now left.
  - apply (chat_history_lists_row E args db2 history
             (mkChatRow therapist_id (chat_reply_for E d message) "therapist" mood
                        now_therapist
                        (Some (args_get (arg_session_id args) "default"))));
      try assumption; [|reflexivity].
    rewrite Hrows. apply in_or_app. right. right. now left.
Qed.

Lemma chat_turns_listed_witness :
  let E := sample_externals None None (fun _ => None) in
  let args := mkArgs (Some "s1") (Some "-1") in
  let db' := snd (chat E sample_chat_body sample_store (Runs 100) 101 tt) in
  requested_session E sample_chat_body = Some (Some "s1") /\
  unbounded (args_get_int E (arg_limit args) 100) (List.length (chat_history db')) /\
  exists history text mood,
    fst (get_chat_history E args db') = ChatHistoryOk history /\
    In (mkChatEntry text "user" mood 100) history /\
    In (mkChatEntry no_model_reply "therapist" mood 101) history.
Proof.
  cbv zeta. split; [reflexivity|].
  assert (Hlimit : unbounded
                     (args_get_int (sample_externals None None (fun _ => None))
                                   (arg_limit (mkArgs (Some "s1") (Some "-1"))) 100)
                     (List.length
                        (chat_history
                           (snd (chat (sample_externals None None (fun _ => None))
                                      sample_chat_body sample_store (Runs 100) 101 tt)))))
    by (left; reflexivity).
  split; [exact Hlimit|].
  eexists.
  destruct (chat_turns_listed
              (sample_externals None None (fun _ => None)) sample_chat_body sample_store
              _ (Runs 100) 101 tt no_model_reply "2024-05-01T12:00:00"
              (mkArgs (Some "s1") (Some "-1")) _ eq_refl eq_refl Hlimit eq_refl)
    as (text & mood & now_user & Hexec & Huser & Htherapist).
  injection Hexec as <-.
  exists text, mood. split; [reflexivity|]. split; assumption.
Defined.

(** X14. With a limit that is negative or at least the number of rows of the
    session, a history query lists every row of the session exactly once:
    the rows behind the answer are a rearrangement of the session's rows,
    newest first for moods and oldest first for chat turns. *)
Theorem history_complete (E : externals) (args : query_args) (db : database) :
  let session := args_get (arg_session_id args) "default" in
  let mood_limit := args_get_int E (arg_limit args) 50 in
  let chat_limit := args_get_int E (arg_limit args) 100 in
  (fits_int64 mood_limit = true ->
   unbounded mood_limit (List.length (session_moods db session)) ->
   exists rows,
     fst (get_mood_history E args db) = MoodHistoryOk (map mood_entry_of rows) /\
     Permutation rows (session_moods db session) /\
     newest_first rows) /\
  (fits_int64 chat_limit = true ->
   unbounded chat_limit (List.length (session_chats db session)) ->
   exists rows,
     fst (get_chat_history E args db) = ChatHistoryOk (map chat_entry_of rows) /\
     Permutation rows (session_chats db session) /\
     oldest_first rows).
Proof.
  cbv zeta. split; intros Hfits Hlimit.
  - destruct (select_mood_history_runs db (args_get (arg_session_id args) "default") _ Hfits)
      as [rows Hrows].
    exists rows. unfold get_mood_history. rewrite Hrows.
    destruct (select_mood_history_spec _ _ _ _ Hrows) as (_ & _ & Hsorted & _).
    split; [reflexivity|]. split; [|assumption].
    unfold select_mood_history in Hrows. rewrite Hfits in Hrows.
    injection Hrows as <-. unfold sql_limit.
    destruct (Z.ltb_spec (args_get_int E (arg_limit args) 50) 0);
      [apply order_by_perm|].
    rewrite firstn_all2; [apply order_by_perm|].
    rewrite order_by_length. unfold session_moods in Hlimit. destruct Hlimit; lia.
  - destruct (select_chat_history_runs db (args_get (arg_session_id args) "default") _ Hfits)
      as [rows Hrows].
    exists rows. unfold get_chat_history. rewrite Hrows.
    destruct (select_chat_history_spec _ _ _ _ Hrows) as (_ & _ & Hsorted & _).
    split; [reflexivity|]. split; [|assumption].
    unfold select_chat_history in Hrows. rewrite Hfits in Hrows.
    injection Hrows as <-. unfold sql_limit.
    destruct (Z.ltb_spec (args_get_int E (arg_limit args) 100) 0);
      [apply order_by_perm|].
    rewrite firstn_all2; [apply order_by_perm|].
    rewrite order_by_length. unfold session_chats in Hlimit. destruct Hlimit; lia.
Qed.

Lemma history_complete_witness :
  let E := sample_externals None None (fun _ => None) in
  let args := mkArgs (Some "s1") (Some "3") in
  fits_int64 (args_get_int E (arg_limit args) 50) = true /\
  unbounded (args_get_int E (arg_limit args) 50)
            (List.length (session_moods sample_store "s1")) /\
  exists rows,
    fst (get_mood_history E args sample_store) = MoodHistoryOk (map mood_entry_of rows) /\
    Permutation rows (session_moods sample_store "s1").
Proof.
  cbv zeta. split; [reflexivity|].
  assert (Hlimit : unbounded
                     (args_get_int (sample_externals None None (fun _ => None))
                                   (arg_limit (mkArgs (Some "s1") (Some "3"))) 50)
                     (List.length (session_moods sample_store "s1")))
    by (right; vm_compute; discriminate).
  split; [exact Hlimit|].
  destruct (history_complete (sample_externals None None (fun _ => None))
                             (mkArgs (Some "s1") (Some "3")) sample_store)
    as [Hmood _].
  destruct (Hmood eq_refl Hlimit) as (rows & Hrun & Hperm & _).
  exists rows. split; assumption.
Defined.

(** X15. A [limit] parameter that [int] rejects counts as absent: both
    history routes answer as if no limit had been sent, with the default of 50
    and 100 entries, and never with an error. *)
Theorem unreadable_limit_is_default (E : externals) (session : option string)
        (raw : string) (db : database) :
  py_int E raw = None ->
  get_mood_history E (mkArgs session (Some raw)) db
  = get_mood_history E (mkArgs session None) db /\
  get_chat_history E (mkArgs session (Some raw)) db
  = get_chat_history E (mkArgs session None) db /\
  (exists history,
      fst (get_mood_history E (mkArgs session (Some raw)) db) = MoodHistoryOk history /\
      (List.length history <= 50)%nat) /\
  (exists history,
      fst (get_chat_history E (mkArgs session (Some raw)) db) = ChatHistoryOk history /\
      (List.length history <= 100)%nat).
Proof.
  intros Hraw.
  assert (Hmood : get_mood_history E (mkArgs session (Some raw)) db
                  = get_mood_history E (mkArgs session None) db)
    by (unfold get_mood_history, args_get_int; cbn [arg_limit arg_session_id];
        now rewrite Hraw).
  assert (Hchat : get_chat_history E (mkArgs session (Some raw)) db
                  = get_chat_history E (mkArgs session None) db)
    by (unfold get_chat_history, args_get_int; cbn [arg_limit arg_session_id];
        now rewrite Hraw).
  rewrite Hmood, Hchat. split; [reflexivity|]. split; [reflexivity|]. split.
  - unfold get_mood_history, select_mood_history, args_get_int. cbn [arg_limit fst].
    change (fits_int64 50) with true. cbv iota. cbn [fst].
    eexists. split; [reflexivity|].
    rewrite length_map, sql_limit_length. cbn. lia.
  - unfold get_chat_history, select_chat_history, args_get_int. cbn [arg_limit fst].
    change (fits_int64 100) with true. cbv iota. cbn [fst].
    eexists. split; [reflexivity|].
    rewrite length_map, sql_limit_length. cbn. lia.
Qed.

Lemma unreadable_limit_is_default_witness :
  let E := sample_externals None None (fun _ => None) in
  py_int E "ten" = None /\
  fst (get_mood_history E (mkArgs (Some "s1") (Some "ten")) sample_store)
  = fst (get_mood_history E (mkArgs (Some "s1") None) sample_store).
Proof.
  cbv zeta. split; [reflexivity|].
  destruct (unreadable_limit_is_default
              (sample_externals None None (fun _ => None)) (Some "s1") "ten"
              sample_store eq_refl) as (Hmood & _).
  now rewrite Hmood.
Defined.

(** ** Primary keys *)

Lemma next_id_fresh (ids : list Z) : ~ In (next_id ids) ids.
Proof.
  assert (Hbound : forall x, In x ids -> x <= fold_right Z.max 0 ids).
  { induction ids as [|a ids IH]; [intros ? []|].
    intros x [->|Hin]; simpl; [lia|]. specialize (IH x Hin). lia. }
  intros Hin. specialize (Hbound _ Hin). unfold next_id in Hbound. lia.
Qed.

Lemma NoDup_snoc {A : Type} (l : list A) (x : A) :
  NoDup l -> ~ In x l -> NoDup (l ++ [x]).
Proof.
  intros Hl Hx. apply NoDup_app; [assumption | repeat constructor; intros [] |].
  intros y Hy [<-|[]]. contradiction.
Qed.

Lemma insert_mood_keys (E : externals) (db db1 : database) (emotion : string)
      (confidence : Q) (session_id : json) (exec : execution) :
  insert_mood E db emotion confidence session_id exec = Some db1 ->
  keys_unique db -> keys_unique db1.
Proof.
  unfold insert_mood. destruct (bind_text E session_id); [|discriminate].
  destruct exec as [|now]; [discriminate|].
  intros H (Hm & Hc & Hs). injection H as <-. repeat split; cbn; auto.
  rewrite map_app. cbn. apply NoDup_snoc; [assumption | apply next_id_fresh].
Qed.

Lemma insert_suggestion_keys (E : externals) (db db1 : database) (emotion : string)
      (message tip activity sound : json) (exec : execution) :
  insert_suggestion E db emotion message tip activity sound exec = Some db1 ->
  keys_unique db -> keys_unique db1.
Proof.
  unfold insert_suggestion.
  destruct (bind_text_not_null E message); [|discriminate].
  destruct (bind_text_not_null E tip); [|discriminate].
  destruct (bind_text E activity); [|discriminate].
  destruct (bind_text E sound); [|discriminate].
  destruct exec as [|now]; [discriminate|].
  intros H (Hm & Hc & Hs). injection H as <-. repeat split; cbn; auto.
  rewrite map_app. cbn. apply NoDup_snoc; [assumption | apply next_id_fresh].
Qed.

Lemma insert_chat_keys (E : externals) (db db1 : database) (message : json)
      (sender : string) (mood session_id : json) (exec : execution) :
  insert_chat E db message sender mood session_id exec = Some db1 ->
  keys_unique db -> keys_unique db1.
Proof.
  unfold insert_chat.
  destruct (bind_text_not_null E message); [|discriminate].
  destruct (bind_text E mood); [|discriminate].
  destruct (bind_text E session_id); [|discriminate].
  destruct exec as [|now]; [discriminate|].
  intros H (Hm & Hc & Hs). injection H as <-. repeat split; cbn; auto.
  rewrite map_app. cbn. apply NoDup_snoc; [assumption | apply next_id_fresh].
Qed.

(** X16. The identifiers the handlers give to new rows never collide: if the
    primary keys of each table are pairwise distinct before a request, they
    are after it, for every request and every outcome. *)
Theorem keys_stay_unique (E : externals) (db : database) :
  keys_unique db ->
  (forall body mood_exec suggestion_exec,
      keys_unique (snd (detect_mood E body db mood_exec suggestion_exec))) /\
  (forall body user_exec now_therapist now,
      keys_unique (snd (chat E body db user_exec now_therapist now))).
Proof.
  intros Hkeys. split.
  - intros body mood_exec suggestion_exec. unfold detect_mood.
    repeat match goal with
           | |- context [match ?x with _ => _ end] => destruct x eqn:?
           end;
      cbn [snd]; eauto using insert_mood_keys, insert_suggestion_keys.
  - intros body user_exec now_therapist now. unfold chat.
    repeat match goal with
           | |- context [match ?x with _ => _ end] => destruct x eqn:?
           end;
      cbn [snd]; eauto using insert_chat_keys.
Qed.

Lemma keys_stay_unique_witness :
  let E := sample_externals (Some [sample_face]) None (fun _ => None) in
  keys_unique sample_store /\
  keys_unique (snd (detect_mood E sample_detect_body sample_store (Runs 100) (Runs 101))) /\
  map mood_id (mood_history (snd (detect_mood E sample_detect_body sample_store
                                              (Runs 100) (Runs 101))))
  = [1; 2; 3; 4; 5].
Proof.
  cbv zeta.
  assert (Hkeys : keys_unique sample_store).
  { repeat split; cbn; repeat constructor; cbn; intuition discriminate. }
  split; [exact Hkeys|]. split; [|reflexivity].
  exact (proj1 (keys_stay_unique (sample_externals (Some [sample_face]) None (fun _ => None))
                                 sample_store Hkeys)
               sample_detect_body (Runs 100) (Runs 101)).
Defined.

(** ** Health and the text generator *)

(** X17. [/health] tells what the other routes will do: it answers
    [healthy] with the current time, reports [gemini_configured] false
    exactly when no model is configured, and leaves the store alone; when it
    reports false, every chat reply is the fixed no-model sentence and every
    suggestion comes from the fallback table. *)
Theorem health_reports_generator (E : externals) (db : database) (now : datetime E) :
  exists configured,
    health_check E db now = (HealthOk "healthy" (isoformat E now) configured, db) /\
    (configured = false <-> model E = None) /\
    (configured = false ->
     (forall message mood history,
         get_chat_response E message mood history = no_model_reply) /\
     (forall emotion use_gemini,
         get_therapeutic_suggestion E emotion use_gemini
         = dict_get_default fallback_suggestions emotion fallback_neutral)).
Proof.
  unfold health_check. destruct (model E) as [g|] eqn:Hmodel.
  - exists true. split; [reflexivity|]. split; [split; discriminate | discriminate].
  - exists false. split; [reflexivity|]. split; [split; reflexivity|].
    intros _. split.
    + intros message mood history. unfold get_chat_response. now rewrite Hmodel.
    + intros emotion use_gemini. unfold get_therapeutic_suggestion.
      rewrite Hmodel. now destruct use_gemini.
Qed.

Lemma health_reports_generator_witness :
  let E := sample_externals None None (fun _ => None) in
  fst (health_check E sample_store tt) = HealthOk "healthy" (isoformat E tt) false /\
  get_chat_response E (JStr "hello") JNull (JArr []) = no_model_reply.
Proof.
  cbv zeta. split; [reflexivity|].
  destruct (health_reports_generator (sample_externals None None (fun _ => None))
                                     sample_store tt)
    as (configured & Hrun & Hiff & Hthen).
  apply Hthen. apply Hiff. reflexivity.
Defined.

(** ** The confidence shown *)

Lemma round_half_even_nonneg (q : Q) : (0 <= q)%Q -> 0 <= round_half_even q.
Proof.
  intros Hq. unfold round_half_even. cbv zeta.
  assert (Hlow : 0 <= Qfloor q).
  { change 0 with (Qfloor 0). now apply Qfloor_resp_le. }
  destruct (q - inject_Z (Qfloor q) ?= 1 # 2)%Q; [destruct (Z.even _)| |]; lia.
Qed.

Lemma round_half_even_le (q : Q) (k : Z) : (q <= inject_Z k)%Q -> round_half_even q <= k.
Proof.
  intros Hq. unfold round_half_even. cbv zeta.
  pose proof (Qfloor_le q) as Hlow.
  assert (Hfloor : Qfloor q <= k).
  { rewrite Zle_Qle. eapply Qle_trans; eassumption. }
  assert (Hup : (0 < q - inject_Z (Qfloor q))%Q -> Qfloor q + 1 <= k).
  { intros Hpos. apply Z.lt_succ_r. unfold Z.succ. apply Z.add_lt_mono_r.
    rewrite Zlt_Qlt. lra. }
  destruct (q - inject_Z (Qfloor q) ?= 1 # 2)%Q eqn:Hcmp.
  - apply Qeq_alt in Hcmp. destruct (Z.even _); [assumption|].
    apply Hup. rewrite Hcmp. reflexivity.
  - assumption.
  - apply Qgt_alt in Hcmp. apply Hup. lra.
Qed.

Lemma pow2_nonpositive (e : Z) : e <= 0 -> (pow2 e == 1 # Z.to_pos (2 ^ (- e)))%Q.
Proof.
  intros He. unfold pow2. destruct (Z.leb_spec 0 e); [|reflexivity].
  replace e with 0 by lia. reflexivity.
Qed.

(** The double closest to a number between 0 and 1 lies between 0 and 1. *)
Lemma nearest_double_range (y : Q) :
  (0 <= y)%Q -> (y <= 1)%Q -> (0 <= nearest_double y)%Q /\ (nearest_double y <= 1)%Q.
Proof.
  intros Hlo Hhi. unfold nearest_double.
  destruct (Qnum y) as [|n|n] eqn:Hnum.
  - split; [apply Qle_refl | discriminate].
  - unfold nearest_double_pos. cbv zeta.
    set (c := Z.log2 (Qnum y) - Z.log2 (Z.pos (Qden y))).
    set (binade := if Qle_bool (pow2 c) y then c else c - 1).
    set (e := Z.max (binade - 52) (- 1074)).
    assert (Hc : c <= 0).
    { unfold c. assert (Qnum y <= Z.pos (Qden y)) by (unfold Qle in Hhi; cbn in Hhi; lia).
      pose proof (Z.log2_le_mono _ _ H). lia. }
    assert (He : e <= 0).
    { unfold e, binade. destruct (Qle_bool (pow2 c) y); lia. }
    set (p := Z.to_pos (2 ^ (- e))).
    assert (Hscaled : (y / pow2 e == y * inject_Z (Z.pos p))%Q).
    { rewrite (pow2_nonpositive e He). fold p. unfold Qdiv, Qinv. cbn. reflexivity. }
    assert (Hm0 : 0 <= round_half_even (y / pow2 e)).
    { apply round_half_even_nonneg. rewrite Hscaled.
      apply Qmult_le_0_compat; [assumption | discriminate]. }
    assert (Hm1 : round_half_even (y / pow2 e) <= Z.pos p).
    { apply round_half_even_le. rewrite Hscaled.
      rewrite <- (Qmult_1_l (inject_Z (Z.pos p))) at 2.
      apply Qmult_le_compat_r; [assumption | discriminate]. }
    generalize dependent (round_half_even (y / pow2 e)). intros m Hm0 Hm1.
    rewrite (pow2_nonpositive e He). fold p.
    unfold Qle, Qmult, inject_Z. cbn. split; lia.
  - exfalso. unfold Qle in Hlo. cbn in Hlo. rewrite Hnum in Hlo. lia.
Qed.

Lemma decimal_round2_range (x : Q) :
  (0 <= x)%Q -> (x <= 1)%Q -> (0 <= decimal_round2 x)%Q /\ (decimal_round2 x <= 1)%Q.
Proof.
  intros Hlo Hhi. unfold decimal_round2.
  assert (H0 : 0 <= round_half_even (x * 100)).
  { apply round_half_even_nonneg. lra. }
  assert (H100 : round_half_even (x * 100) <= 100).
  { apply round_half_even_le. change (inject_Z 100) with 100%Q. lra. }
  unfold Qle. cbn. split; lia.
Qed.

Lemma py_round2_range (x : Q) :
  (0 <= x)%Q -> (x <= 1)%Q -> (0 <= py_round2 x)%Q /\ (py_round2 x <= 1)%Q.
Proof.
  intros Hlo Hhi. unfold py_round2.
  destruct (decimal_round2_range x Hlo Hhi). now apply nearest_double_range.
Qed.

(** X18. Rounding keeps the confidence in range: when the classifier's
    confidence lies between 0 and 1, so does the confidence a successful
    detection answers with. *)
Theorem confidence_shown_in_range (E : externals) (body : option json) (db db' : database)
        (mood_exec suggestion_exec : execution)
        (emotion : string) (confidence : Q) (session : cell)
        (shown : Q) (message tip activity sound : json) :
  detected E body emotion confidence session ->
  (0 <= confidence)%Q -> (confidence <= 1)%Q ->
  detect_mood E body db mood_exec suggestion_exec
  = (DetectionOk emotion shown message tip activity sound, db') ->
  (0 <= shown)%Q /\ (shown <= 1)%Q.
Proof.
  intros Hdet Hlo Hhi. destruct mood_exec as [|now_mood].
  - rewrite (detect_mood_refused _ _ _ _ _ _ _ Hdet). discriminate.
  - rewrite (detect_mood_detected _ _ _ _ _ _ _ _ Hdet). cbv zeta.
    destruct (py_getitem _ "message"); [|discriminate].
    destruct (py_getitem _ "tip"); [|discriminate].
    destruct (py_get _ "activity" _); [|discriminate].
    destruct (py_get _ "sound" _); [|discriminate].
    destruct (insert_suggestion _ _ _ _ _ _ _ _); [|discriminate].
    intros H. injection H as <- _ _ _ _ _. now apply py_round2_range.
Qed.

Lemma confidence_shown_in_range_witness :
  let E := sample_externals (Some [sample_face; other_face]) None (fun _ => None) in
  detected E sample_detect_body "happy" 0.875%Q (Some "s1") /\
  (0 <= 0.875)%Q /\ (0.875 <= 1)%Q /\
  (0 <= py_round2 0.875)%Q /\ (py_round2 0.875 <= 1)%Q.
Proof.
  cbv zeta.
  assert (Hlo : (0 <= 0.875)%Q) by (vm_compute; discriminate).
  assert (Hhi : (0.875 <= 1)%Q) by (vm_compute; discriminate).
  split; [apply sample_detected|]. split; [exact Hlo|]. split; [exact Hhi|].
  exact (confidence_shown_in_range
           (sample_externals (Some [sample_face; other_face]) None (fun _ => None))
           sample_detect_body empty_database _ (Runs 100) (Runs 101)
           "happy" 0.875%Q (Some "s1")
           (py_round2 0.875) _ _ _ _ (sample_detected _ _) Hlo Hhi eq_refl).
Defined.
